(** * Chat / RAG service: a shallow embedding of [app/services/qa.py] and
  [app/api/chat.py], and the properties of the orchestration layer.

  The service is glue around third-party collaborators (the Ollama client,
  the text splitter, the FAISS index, the clock).  Their behaviour is taken
  as an interface, [Backend]; everything the repository itself writes
  (control flow, exception handling, state updates, string formatting) is
  defined below, function by function, under the names of the source. *)

From Stdlib Require Import ZArith String Ascii List Lia.
From stdpp Require Import base option list strings gmap.

Open Scope Z_scope.
Open Scope string_scope.
Open Scope list_scope.

(** ** Python string primitives used by the source

  A Python [str] is modelled by [string], one element per character
  (literals copied from the source are stored in their UTF-8 encoding;
  nothing below depends on the length of a literal). *)
Module Py.

(** The line feed character as a string. *)
Definition newline : string := String (ascii_of_nat 10) EmptyString.

(** [len(s)] *)
Definition len (s : string) : nat := String.length s.

(** [s[:n]] *)
Definition slice_to (n : nat) (s : string) : string := substring 0 n s.

(** [s.endswith(suffix)] *)
Definition endswith (s suffix : string) : bool :=
  (len suffix <=? len s)%nat
  && String.eqb (substring (len s - len suffix) (len suffix) s) suffix.

(** [s.endswith((a, b, ...))]: true when one of the suffixes matches. *)
Definition endswith_any (s : string) (suffixes : list string) : bool :=
  existsb (endswith s) suffixes.

(** [c.isspace()] on the characters below 256. *)
Definition isspace (c : ascii) : bool :=
  let n := nat_of_ascii c in
  ((9 <=? n) && (n <=? 13) || (28 <=? n) && (n <=? 32)
   || (n =? 133) || (n =? 160))%nat.

(** [s.lstrip()] *)
Fixpoint lstrip (s : string) : string :=
  match s with
  | EmptyString => EmptyString
  | String c s' => if isspace c then lstrip s' else s
  end.

(** [s.rstrip()] *)
Fixpoint rstrip (s : string) : string :=
  match s with
  | EmptyString => EmptyString
  | String c s' =>
      match rstrip s' with
      | EmptyString => if isspace c then EmptyString else String c EmptyString
      | r => String c r
      end
  end.

(** [s.strip()] *)
Definition strip (s : string) : string := rstrip (lstrip s).

(** Truth value of a string: [not s] holds exactly for the empty string. *)
Definition truthy (s : string) : bool := negb (String.eqb s "").

(** Truth value of an [Optional[str]]: [None] and [""] are both false. *)
Definition truthy_opt (o : option string) : bool :=
  match o with
  | None => false
  | Some s => truthy s
  end.

End Py.

(** ** Exceptions

  Every exception the source can see is an instance of [Exception];
  [HTTPException] is the subclass FastAPI turns into a response with the
  given status.  An [except Exception] clause catches both. *)
Inductive exn : Type :=
| HTTPException (status_code : Z) (detail : string)
| Exception (text : string).

(** ** Documents and conversation turns *)

(** [langchain.schema.Document]: text plus a metadata dictionary. *)
Record Document : Type := mkDocument {
page_content : string;
metadata : gmap string string
}.

Inductive role : Type := Human | AI.

(** One message of a [ConversationBufferMemory]. *)
Definition Turn : Type := (role * string)%type.

(** Identity of a [ConversationBufferMemory] object. *)
Definition loc : Type := nat.

(** The calls that leave the process, in the order they are made. *)
Inductive call : Type :=
| CallTime
| CallUtcnow
| CallLLM (prompt : string)
| CallEmbed (texts : list string)
| CallSearch (query : string) (k : nat).

(** ** The third-party collaborators

  [World] is whatever the outside consists of (clock, network, inference
  server); each operation reads and advances it.  A call that can raise
  returns [inl e]. *)
Class Backend : Type := {
World : Type;
(** [time.time()] and [int((t1 - t0) * 1000)] on its float results *)
Time : Type;
time_time : World -> Time * World;
elapsed_ms : Time -> Time -> Z;
(** [datetime.utcnow()] and [.isoformat()] *)
DateTime : Type;
utcnow : World -> DateTime * World;
isoformat : DateTime -> string;
(** [str(e)] for an [HTTPException] (Starlette's [__str__]) *)
str_http : Z -> string -> string;
(** [bytes.decode('utf-8')] *)
decode_utf8 : list ascii -> exn + string;
(** [OllamaLLM]: one completion call *)
llm_call : string -> World -> (exn + string) * World;
(** [get_buffer_string]: how a memory renders its turns into [{history}] *)
buffer_string : list Turn -> string;
(** [RecursiveCharacterTextSplitter(chunk_size, chunk_overlap, len).split_text] *)
split_text : nat -> nat -> string -> list string;
(** [OllamaEmbeddings.embed_documents], as used by [FAISS.from_documents]:
    [None] when every text was embedded *)
embed_documents : list string -> World -> option exn * World;
(** the retriever of a FAISS index holding the given documents *)
similarity_search :
  list Document -> string -> nat -> World -> (exn + list Document) * World;
(** the prompt of the "stuff" chain of [RetrievalQA] *)
stuff_prompt : list Document -> string -> string
}.

(** What the retriever promises: at most [k] results, all of them stored in
  the index; and what the splitter promises: no chunk longer than
  [chunk_size]. *)
Class BackendLaws (B : Backend) : Prop := {
search_length : forall idx q k w ds w',
  similarity_search idx q k w = (inr ds, w') -> (length ds <= k)%nat;
search_stored : forall idx q k w ds w',
  similarity_search idx q k w = (inr ds, w') -> forall d, d ∈ ds -> d ∈ idx;
split_bounded : forall size overlap text c,
  c ∈ split_text size overlap text -> (Py.len c <= size)%nat
}.

(** ** Service state *)

(** The fields of [QAService] that change or are reported ([llm] and
  [embeddings] are fixed handles on the backend). *)
Record QAService : Type := mkQAService {
model_name : string;
base_url : string;
vector_store : option (list Document);
sessions : gmap string loc;
documents : list Document
}.

Definition set_vector_store (v : option (list Document)) (q : QAService) :=
mkQAService (model_name q) (base_url q) v (sessions q) (documents q).
Definition set_sessions (m : gmap string loc) (q : QAService) :=
mkQAService (model_name q) (base_url q) (vector_store q) m (documents q).
Definition set_documents (ds : list Document) (q : QAService) :=
mkQAService (model_name q) (base_url q) (vector_store q) (sessions q) ds.

Section Service.
Context {B : Backend}.

(** The process: the global [qa_service], the memory objects it and the
    running requests hold, the outside world and the calls made so far. *)
Record Sys : Type := mkSys {
  svc : QAService;
  heap : gmap loc (list Turn);
  next_loc : loc;
  world : World;
  trace : list call
}.

Definition with_svc (f : QAService -> QAService) (s : Sys) : Sys :=
  mkSys (f (svc s)) (heap s) (next_loc s) (world s) (trace s).
Definition with_heap (f : gmap loc (list Turn) -> gmap loc (list Turn))
    (s : Sys) : Sys :=
  mkSys (svc s) (f (heap s)) (next_loc s) (world s) (trace s).

(** *** Computations: state that survives an exception *)
Definition M (A : Type) : Type := Sys -> (exn + A) * Sys.

#[export] Instance M_ret : MRet M := fun A a s => (inr a, s).
#[export] Instance M_bind : MBind M := fun A C f m s =>
  match m s with
  | (inr a, s') => f a s'
  | (inl e, s') => (inl e, s')
  end.

Definition raise {A} (e : exn) : M A := fun s => (inl e, s).

(** [try: body / except Exception as e: handler e] *)
Definition try_except {A} (body : M A) (handler : exn -> M A) : M A :=
  fun s =>
    match body s with
    | (inl e, s') => handler e s'
    | (inr a, s') => (inr a, s')
    end.

Definition gets {A} (f : Sys -> A) : M A := fun s => (inr (f s), s).
Definition modify (f : Sys -> Sys) : M unit := fun s => (inr tt, f s).

(** A call to the outside that cannot raise / that can raise. *)
Definition external {A} (c : call) (op : World -> A * World) : M A :=
  fun s =>
    let '(a, w) := op (world s) in
    (inr a, mkSys (svc s) (heap s) (next_loc s) w (trace s ++ [c])).

Definition external_exn {A} (c : call) (op : World -> (exn + A) * World)
    : M A :=
  fun s =>
    let '(r, w) := op (world s) in
    (r, mkSys (svc s) (heap s) (next_loc s) w (trace s ++ [c])).

(** *** Library calls as the source makes them *)

Definition time_now : M Time := external CallTime time_time.
Definition datetime_utcnow : M DateTime := external CallUtcnow utcnow.

(** [self.llm.invoke(prompt)] *)
Definition llm_invoke (prompt : string) : M string :=
  external_exn (CallLLM prompt) (llm_call prompt).

(** [str(e)] *)
Definition str_exn (e : exn) : string :=
  match e with
  | HTTPException c d => str_http c d
  | Exception t => t
  end.

(** [ConversationBufferMemory()]: a new object with an empty buffer. *)
Definition ConversationBufferMemory : M loc :=
  fun s =>
    (inr (next_loc s),
     mkSys (svc s) (<[next_loc s := []]> (heap s)) (S (next_loc s))
           (world s) (trace s)).

(** The buffer of a memory object. *)
Definition buffer (s : Sys) (m : loc) : list Turn :=
  default [] (heap s !! m).

(** [memory.save_context]: the exchange is appended to the buffer. *)
Definition save_context (m : loc) (question answer : string) : M unit :=
  modify (fun s =>
    with_heap <[m := buffer s m ++ [(Human, question); (AI, answer)]]> s).

(** [self.chat_template] with its two variables filled in. *)
Definition chat_template (history question : string) : string :=
  "Você é um assistente inteligente e prestativo. Responda de forma clara, precisa e educada."
  +:+ Py.newline +:+ Py.newline
  +:+ "Histórico da conversa:" +:+ Py.newline
  +:+ history +:+ Py.newline +:+ Py.newline
  +:+ "Pergunta: " +:+ question +:+ Py.newline +:+ Py.newline
  +:+ "Resposta:".

(** [LLMChain(llm, prompt, memory).run({"question": question})]: one
    completion call carrying the accumulated history and the new message;
    the exchange is recorded only when the call returns. *)
Definition LLMChain_run (memory : loc) (question : string) : M string :=
  history ← gets (fun s => buffer s memory);
  response ← llm_invoke (chat_template (buffer_string history) question);
  save_context memory question response;;
  mret response.

(** [text_splitter.split_documents(docs)]: every chunk keeps the metadata
    of the document it was cut from. *)
Definition split_documents (chunk_size chunk_overlap : nat)
    (docs : list Document) : list Document :=
  flat_map
    (fun d => map (fun c => mkDocument c (metadata d))
                  (split_text chunk_size chunk_overlap (page_content d)))
    docs.

(** [FAISS.from_documents(docs, self.embeddings)]: an index holding
    exactly [docs], once their texts are embedded. *)
Definition FAISS_from_documents (docs : list Document)
    : M (list Document) :=
  let texts := map page_content docs in
  r ← external (CallEmbed texts) (embed_documents texts);
  match r with
  | Some e => raise e
  | None => mret docs
  end.

(** [index.merge_from(other)] *)
Definition merge_from (index other : list Document) : list Document :=
  index ++ other.

(** [RetrievalQA.from_chain_type(llm, "stuff", retriever(k),
    return_source_documents=True)({"query": question})] *)
Definition RetrievalQA_call (index : list Document) (k : nat)
    (question : string) : M (string * list Document) :=
  docs ← external_exn (CallSearch question k)
                      (similarity_search index question k);
  answer ← llm_invoke (stuff_prompt docs question);
  mret (answer, docs).

(** *** [app/services/qa.py] *)

(** [QAService.__init__]: names from the arguments, else from the
    environment, else the defaults; nothing stored yet. *)
Definition QAService_init (model base : option string)
    (env : gmap string string) : QAService :=
  {| model_name :=
       if Py.truthy_opt model then default "" model
       else default "llama3" (env !! "OLLAMA_MODEL");
     base_url :=
       if Py.truthy_opt base then default "" base
       else default "http://localhost:11434" (env !! "OLLAMA_BASE_URL");
     vector_store := None;
     sessions := ∅;
     documents := [] |}.

(** The process right after [qa_service = QAService()]. *)
Definition boot (env : gmap string string) (w : World) : Sys :=
  mkSys (QAService_init None None env) ∅ 0%nat w [].

Definition check_ollama_connection : M bool :=
  try_except
    (response ← llm_invoke "Hello";
     mret true)
    (fun e => mret false).

Definition _get_or_create_session_memory (session_id : option string)
    : M loc :=
  if negb (Py.truthy_opt session_id) then ConversationBufferMemory
  else
    let sid := default "" session_id in
    ss ← gets (fun s => sessions (svc s));
    (if decide (ss !! sid = None)
     then
       m ← ConversationBufferMemory;
       modify (with_svc (fun q => set_sessions (<[sid := m]> (sessions q)) q))
     else mret tt);;
    ss' ← gets (fun s => sessions (svc s));
    match ss' !! sid with
    | Some m => mret m
    | None => raise (Exception "KeyError")
    end.

Definition chat_apology : string :=
  "Desculpe, ocorreu um erro ao processar sua mensagem: ".

Definition get_chat_response (message : string)
    (session_id : option string) : M (string * Z) :=
  start_time ← time_now;
  try_except
    (memory ← _get_or_create_session_memory session_id;
     response ← LLMChain_run memory message;
     now ← time_now;
     let latency_ms := elapsed_ms now start_time in
     mret (Py.strip response, latency_ms))
    (fun e =>
       now ← time_now;
       let latency_ms := elapsed_ms now start_time in
       mret (chat_apology +:+ str_exn e, latency_ms)).

Definition clear_session_memory (session_id : string) : M unit :=
  ss ← gets (fun s => sessions (svc s));
  if decide (is_Some (ss !! session_id))
  then modify (with_svc (fun q => set_sessions (delete session_id (sessions q)) q))
  else mret tt.

(** [Document(page_content=content, metadata={"filename": ..., "type": ...,
    "timestamp": now.isoformat()})] *)
Definition new_document (content fname document_type : string)
    (now : DateTime) : Document :=
  mkDocument content
    (<["filename" := fname]>
       (<["type" := document_type]> (<["timestamp" := isoformat now]> ∅))).

Definition add_document (content filename document_type : string)
    : M unit :=
  try_except
    (now ← datetime_utcnow;
     let doc := new_document content filename document_type now in
     modify (with_svc (fun q => set_documents (documents q ++ [doc]) q));;
     docs ← gets (fun s => documents (svc s));
     let chunks := split_documents 1000 200 docs in
     store ← gets (fun s => vector_store (svc s));
     match store with
     | None =>
         index ← FAISS_from_documents chunks;
         modify (with_svc (set_vector_store (Some index)))
     | Some index =>
         new_vector_store ← FAISS_from_documents [doc];
         modify (with_svc
                   (set_vector_store (Some (merge_from index new_vector_store))))
     end)
    (fun e => raise e).

Definition no_documents_message : string :=
  "Nenhum documento foi carregado ainda. Por favor, faça upload de documentos primeiro.".

Definition rag_apology : string :=
  "Desculpe, ocorreu um erro ao processar sua pergunta: ".

(** The excerpt of a retrieved chunk:
    [page_content[:200] + "..." if len(page_content) > 200 else page_content] *)
Definition source_text (doc : Document) : string :=
  if (200 <? Py.len (page_content doc))%nat
  then Py.slice_to 200 (page_content doc) +:+ "..."
  else page_content doc.

(** [doc.metadata.get("filename", "documento")] *)
Definition source_filename (doc : Document) : string :=
  default "documento" (metadata doc !! "filename").

(** [f"[{filename}] {source_text}"] *)
Definition format_source (doc : Document) : string :=
  "[" +:+ source_filename doc +:+ "] " +:+ source_text doc.

Definition get_rag_response (question : string)
    (session_id : option string) : M (string * list string * Z) :=
  start_time ← time_now;
  try_except
    (store ← gets (fun s => vector_store (svc s));
     match store with
     | None =>
         now ← time_now;
         let latency_ms := elapsed_ms now start_time in
         mret (no_documents_message, [], latency_ms)
     | Some index =>
         result ← RetrievalQA_call index 3 question;
         let answer := Py.strip (fst result) in
         let source_docs := snd result in
         let sources := map format_source source_docs in
         now ← time_now;
         let latency_ms := elapsed_ms now start_time in
         mret (answer, sources, latency_ms)
     end)
    (fun e =>
       now ← time_now;
       let latency_ms := elapsed_ms now start_time in
       mret (rag_apology +:+ str_exn e, [], latency_ms)).

Definition get_document_count : M nat :=
  gets (fun s => length (documents (svc s))).

Definition get_session_count : M nat :=
  gets (fun s => size (sessions (svc s))).

Record Stats : Type := mkStats {
  stats_model_name : string;
  stats_base_url : string;
  documents_loaded : nat;
  active_sessions : nat;
  ollama_connected : bool
}.

Definition get_stats : M Stats :=
  name ← gets (fun s => model_name (svc s));
  url ← gets (fun s => base_url (svc s));
  ndocs ← get_document_count;
  nsessions ← get_session_count;
  connected ← check_ollama_connection;
  mret (mkStats name url ndocs nsessions connected).

(** *** [app/schemas/chat.py] *)

Record ChatRequest : Type := mkChatRequest {
  message : string;
  chat_session_id : option string
}.

Record ChatResponse : Type := mkChatResponse {
  answer : string;
  latency_ms : Z;
  response_session_id : option string;
  timestamp : DateTime
}.

Record HealthResponse : Type := mkHealthResponse {
  status : string;
  health_timestamp : DateTime;
  ollama_status : string
}.

Record RAGQueryRequest : Type := mkRAGQueryRequest {
  question : string;
  rag_session_id : option string
}.

Record RAGQueryResponse : Type := mkRAGQueryResponse {
  rag_answer : string;
  sources : list string;
  rag_latency_ms : Z;
  rag_response_session_id : option string;
  rag_timestamp : DateTime
}.

(** An uploaded file: its name and its bytes. *)
Record UploadFile : Type := mkUploadFile {
  filename : string;
  file_bytes : list ascii
}.

(** The dictionary [upload_document] returns. *)
Record UploadResult : Type := mkUploadResult {
  upload_message : string;
  upload_filename : string;
  upload_size : nat;
  upload_type : string;
  total_documents : nat
}.

(** *** [app/api/chat.py] *)

Definition chat (request : ChatRequest) : M ChatResponse :=
  try_except
    (r ← get_chat_response (message request) (chat_session_id request);
     now ← datetime_utcnow;
     mret (mkChatResponse (fst r) (snd r) (chat_session_id request) now))
    (fun e =>
       raise (HTTPException 500 ("Erro interno do servidor: " +:+ str_exn e))).

Definition health_check : M HealthResponse :=
  try_except
    (connected ← check_ollama_connection;
     let ollama := if connected : bool then "connected" else "disconnected" in
     let api_status := if connected : bool then "healthy" else "degraded" in
     now ← datetime_utcnow;
     mret (mkHealthResponse api_status now ollama))
    (fun e =>
       now ← datetime_utcnow;
       mret (mkHealthResponse "unhealthy" now "error")).

Definition upload_document (file : UploadFile) (document_type : string)
    : M UploadResult :=
  try_except
    ((if negb (Py.endswith_any (filename file) [".txt"; ".md"])
      then raise (HTTPException 400 "Apenas arquivos .txt e .md são suportados")
      else mret tt);;
     content_str ← match decode_utf8 (file_bytes file) with
                   | inl e => raise e
                   | inr text => mret text
                   end;
     (if negb (Py.truthy (Py.strip content_str))
      then raise (HTTPException 400 "O arquivo está vazio")
      else mret tt);;
     add_document content_str (filename file) document_type;;
     count ← get_document_count;
     mret (mkUploadResult
             ("Documento " +:+ filename file +:+ " carregado com sucesso")
             (filename file) (Py.len content_str) document_type count))
    (fun e =>
       raise (HTTPException 500 ("Erro ao processar documento: " +:+ str_exn e))).

Definition ask_documents (request : RAGQueryRequest) : M RAGQueryResponse :=
  try_except
    (r ← get_rag_response (question request) (rag_session_id request);
     now ← datetime_utcnow;
     mret (mkRAGQueryResponse (fst (fst r)) (snd (fst r)) (snd r)
                              (rag_session_id request) now))
    (fun e =>
       raise (HTTPException 500 ("Erro interno do servidor: " +:+ str_exn e))).

Definition clear_session (session_id : string) : M string :=
  try_except
    (clear_session_memory session_id;;
     mret ("Histórico da sessão " +:+ session_id +:+ " limpo com sucesso"))
    (fun e =>
       raise (HTTPException 500 ("Erro ao limpar sessão: " +:+ str_exn e))).

Definition stats_endpoint : M Stats :=
  try_except get_stats
    (fun e =>
       raise (HTTPException 500 ("Erro ao obter estatísticas: " +:+ str_exn e))).

(** *** What FastAPI sends back ([app/main.py])

    A returned value is a 200 response; an [HTTPException] is a response
    with its own status; anything else reaches [global_exception_handler],
    which answers 500. *)
Record Response (A : Type) : Type := mkResponse {
  status_code : Z;
  body : A + string
}.
Arguments mkResponse {A} _ _.
Arguments status_code {A} _.
Arguments body {A} _.

Definition serve {A} (endpoint : M A) (s : Sys) : Response A * Sys :=
  match endpoint s with
  | (inr a, s') => (mkResponse 200 (inl a), s')
  | (inl (HTTPException code detail), s') => (mkResponse code (inr detail), s')
  | (inl (Exception _), s') =>
      (mkResponse 500 (inr "Erro interno do servidor"), s')
  end.

(** Validation of the request body ([app/schemas/chat.py]):
    [message: str = Field(..., min_length=1, max_length=2000)] *)
Definition ChatRequest_valid (request : ChatRequest) : bool :=
  (1 <=? Py.len (message request))%nat
  && (Py.len (message request) <=? 2000)%nat.

(** [question: str = Field(..., min_length=1, max_length=2000)] *)
Definition RAGQueryRequest_valid (request : RAGQueryRequest) : bool :=
  (1 <=? Py.len (question request))%nat
  && (Py.len (question request) <=? 2000)%nat.

(** What a route with a validated body sends back: when the body fails the
    validation FastAPI answers 422 with its own list of errors and does not
    call the endpoint; otherwise the endpoint is served. *)
Inductive Reply (A : Type) : Type :=
| Unprocessable
| Handled (response : Response A).
Arguments Unprocessable {A}.
Arguments Handled {A} _.

Definition reply_status {A} (r : Reply A) : Z :=
  match r with
  | Unprocessable => 422
  | Handled response => status_code response
  end.

Definition validated {A} (valid : bool) (endpoint : M A) (s : Sys)
    : Reply A * Sys :=
  if valid
  then (Handled (fst (serve endpoint s)), snd (serve endpoint s))
  else (Unprocessable, s).

(** [POST /chat] and [POST /ask] as the application serves them. *)
Definition post_chat (request : ChatRequest) : Sys -> Reply ChatResponse * Sys :=
  validated (ChatRequest_valid request) (chat request).

Definition post_ask (request : RAGQueryRequest)
    : Sys -> Reply RAGQueryResponse * Sys :=
  validated (RAGQueryRequest_valid request) (ask_documents request).

(** *** Runs of the service *)

(** The requests of the six routes. *)
Inductive request : Type :=
| PostChat (r : ChatRequest)
| GetHealth
| PostUpload (file : UploadFile) (document_type : string)
| PostAsk (r : RAGQueryRequest)
| DeleteSession (session_id : string)
| GetStats.

(** The process after serving one request. *)
Definition handle (r : request) (s : Sys) : Sys :=
  match r with
  | PostChat r => snd (serve (chat r) s)
  | GetHealth => snd (serve health_check s)
  | PostUpload f t => snd (serve (upload_document f t) s)
  | PostAsk r => snd (serve (ask_documents r) s)
  | DeleteSession sid => snd (serve (clear_session sid) s)
  | GetStats => snd (serve stats_endpoint s)
  end.

(** The process after one request as the application serves it: a body
    that fails the validation leaves it as it is. *)
Definition receive (r : request) (s : Sys) : Sys :=
  match r with
  | PostChat c => snd (post_chat c s)
  | PostAsk q => snd (post_ask q s)
  | _ => handle r s
  end.

(** The process after serving the requests in order. *)
Definition run (rs : list request) (s : Sys) : Sys :=
  fold_left (fun s r => handle r s) rs s.

(** States the service can be in: started, then any requests. *)
Definition reachable (s : Sys) : Prop :=
  exists env w rs, s = run rs (boot env w).

(** *** Notions the statements are written with *)

(** The probe answers [true] exactly when the completion call returns. *)
Definition llm_up (w : World) : bool :=
  match fst (llm_call "Hello" w) with
  | inr _ => true
  | inl _ => false
  end.

(** The documents [add_document] hands to [FAISS.from_documents]. *)
Definition to_index (s : Sys) (doc : Document) : list Document :=
  match vector_store (svc s) with
  | None => split_documents 1000 200 (documents (svc s) ++ [doc])
  | Some _ => [doc]
  end.

(** The index once they are embedded. *)
Definition next_index (s : Sys) (doc : Document) : list Document :=
  match vector_store (svc s) with
  | None => to_index s doc
  | Some index => merge_from index (to_index s doc)
  end.

(** The state after [ConversationBufferMemory()]. *)
Definition alloc (s : Sys) : Sys :=
  mkSys (svc s) (<[next_loc s := []]> (heap s)) (S (next_loc s))
        (world s) (trace s).

(** The memory the session map already holds for an identifier the code
    treats as given. *)
Definition known_memory (session_id : option string) (s : Sys)
    : option loc :=
  if Py.truthy_opt session_id
  then sessions (svc s) !! default "" session_id
  else None.

(** The memory object a chat works on: the session's, or a new one. *)
Definition memory_of (session_id : option string) (s : Sys) : loc :=
  default (next_loc s) (known_memory session_id s).

(** The history the chat finds there. *)
Definition prior_history (session_id : option string) (s : Sys)
    : list Turn :=
  from_option (buffer s) [] (known_memory session_id s).

(** The session map the chat leaves. *)
Definition sessions_after (session_id : option string) (s : Sys)
    : gmap string loc :=
  if Py.truthy_opt session_id
  then <[default "" session_id := memory_of session_id s]> (sessions (svc s))
  else sessions (svc s).

(** The prompt of the chat. *)
Definition chat_prompt (message : string) (session_id : option string)
    (s : Sys) : string :=
  chat_template (buffer_string (prior_history session_id s)) message.

(** The turns the outcome of the completion call adds to the history. *)
Definition new_turns (message : string) (r : exn + string) : list Turn :=
  match r with
  | inr response => [(Human, message); (AI, response)]
  | inl _ => []
  end.

(** The answer [get_chat_response] gives for that outcome. *)
Definition chat_answer (r : exn + string) : string :=
  match r with
  | inr response => Py.strip response
  | inl e => chat_apology +:+ str_exn e
  end.

(** What a request can do to the session map and the memories: a chat
    works on the memory of its session, a deletion removes one entry, the
    other routes leave both alone. *)
Inductive memory_step (s s' : Sys) : request -> Prop :=
| step_chat (r : ChatRequest) (turns : list Turn) :
    sessions (svc s') = sessions_after (chat_session_id r) s ->
    next_loc s' = match known_memory (chat_session_id r) s with
                  | Some _ => next_loc s
                  | None => S (next_loc s)
                  end ->
    (forall l, buffer s' l =
       if decide (l = memory_of (chat_session_id r) s)
       then prior_history (chat_session_id r) s ++ turns
       else buffer s l) ->
    memory_step s s' (PostChat r)
| step_delete (sid : string) :
    sessions (svc s') = delete sid (sessions (svc s)) ->
    next_loc s' = next_loc s ->
    (forall l, buffer s' l = buffer s l) ->
    memory_step s s' (DeleteSession sid)
| step_other (r : request) :
    (forall c, r <> PostChat c) ->
    (forall sid, r <> DeleteSession sid) ->
    sessions (svc s') = sessions (svc s) ->
    next_loc s' = next_loc s ->
    (forall l, buffer s' l = buffer s l) ->
    memory_step s s' r.

(** Every memory the session map refers to has been created. *)
Definition wf (s : Sys) : Prop :=
  forall sid l, sessions (svc s) !! sid = Some l -> (l < next_loc s)%nat.

(** No session refers to memory [m]. *)
Definition unshared (m : loc) (s : Sys) : Prop :=
  forall sid l, sessions (svc s) !! sid = Some l -> l <> m.

(** The requests of chats sent without a session identifier. *)
Definition anonymous_chats (messages : list string) : list request :=
  map (fun m => PostChat (mkChatRequest m None)) messages.

(** The history a session has on record. *)
Definition session_history (sid : string) (s : Sys) : option (list Turn) :=
  buffer s <$> sessions (svc s) !! sid.

(** The indexed text [c] originates from document [d]: it is the document
    itself, or a chunk cut from its content that carries its metadata. *)
Definition cut_from (c d : Document) : Prop :=
  c = d
  \/ (metadata c = metadata d
      /\ page_content c ∈ split_text 1000 200 (page_content d)).

(** Every ingested document has a filename, and every indexed text
    originates from an ingested document. *)
Definition provenance (s : Sys) : Prop :=
  (forall d, d ∈ documents (svc s) -> is_Some (metadata d !! "filename"))
  /\ forall index c,
       vector_store (svc s) = Some index -> c ∈ index ->
       exists d, d ∈ documents (svc s) /\ cut_from c d.

(** *** More of the service, and the notions of the further statements *)

(** [lifespan] of [app/main.py] up to its [yield]: the connection is probed
    once at startup and the outcome is only logged. *)
Definition lifespan_startup : M unit :=
  try_except
    (connected ← check_ollama_connection;
     if connected : bool then mret tt else mret tt)
    (fun e => mret tt).

(** The exception a computation ends with, if it raises. *)
Definition raised {A} (r : (exn + A) * Sys) : option exn :=
  match fst r with
  | inl e => Some e
  | inr _ => None
  end.

(** The exception the route of a request raises, if any. *)
Definition route_failure (r : request) (s : Sys) : option exn :=
  match r with
  | PostChat c => raised (chat c s)
  | GetHealth => raised (health_check s)
  | PostUpload f t => raised (upload_document f t s)
  | PostAsk q => raised (ask_documents q s)
  | DeleteSession sid => raised (clear_session sid s)
  | GetStats => raised (stats_endpoint s)
  end.

(** A text made of whitespace only (the empty text included). *)
Definition blank (text : string) : bool :=
  forallb Py.isspace (list_ascii_of_string text).

(** No two sessions refer to the same memory. *)
Definition injective_sessions (s : Sys) : Prop :=
  forall sid1 sid2 l,
    sessions (svc s) !! sid1 = Some l -> sessions (svc s) !! sid2 = Some l ->
    sid1 = sid2.

(** The first and the last character of a text. *)
Definition first_char (text : string) : option ascii :=
  match text with
  | EmptyString => None
  | String c _ => Some c
  end.

Fixpoint last_char (text : string) : option ascii :=
  match text with
  | EmptyString => None
  | String c EmptyString => Some c
  | String _ rest => last_char rest
  end.

(** A character that is there and is no whitespace. *)
Definition solid (c : option ascii) : Prop :=
  exists a, c = Some a /\ Py.isspace a = false.

End Service.

Arguments Unprocessable {A}.
Arguments Handled {A} _.
Arguments mkResponse {A} _ _.
Arguments status_code {A} _.
Arguments body {A} _.

(** ** A small concrete backend

  A scripted outside world, used to run the service on concrete inputs:
  a clock that ticks once per reading, completion and embedding calls that
  succeed or fail as the script says, a splitter that cuts fixed-width
  pieces and a retriever that returns the first [k] stored documents. *)
Module Demo.

Record script : Type := mkScript {
  clock : nat;
  llm_script : list (exn + string);
  embed_script : list (option exn)
}.

Definition tick (w : script) : nat * script :=
  (clock w, mkScript (S (clock w)) (llm_script w) (embed_script w)).

Definition complete (prompt : string) (w : script) : (exn + string) * script :=
  match llm_script w with
  | [] => (inr " ok ", w)
  | r :: rest => (r, mkScript (clock w) rest (embed_script w))
  end.

Definition embed (texts : list string) (w : script) : option exn * script :=
  match embed_script w with
  | [] => (None, w)
  | r :: rest => (r, mkScript (clock w) (llm_script w) rest)
  end.

Definition render (turns : list Turn) : string :=
  String.concat Py.newline (map (fun t => (match fst t with Human => "Human: " | AI => "AI: " end)
                   +:+ snd t) turns).

(** Pieces of [size] characters, left to right. *)
Fixpoint pieces (fuel size : nat) (text : string) : list string :=
  match fuel with
  | O => []
  | S fuel' =>
      match text with
      | EmptyString => []
      | _ => substring 0 size text
             :: pieces fuel' size
                  (substring size (String.length text - size) text)
      end
  end.

Definition split (size overlap : nat) (text : string) : list string :=
  match size with
  | O => []
  | _ => pieces (String.length text) size text
  end.

Definition search (idx : list Document) (q : string) (k : nat) (w : script)
    : (exn + list Document) * script :=
  (inr (take k idx), w).

#[export] Instance backend : Backend := {|
  World := script;
  Time := nat;
  time_time := tick;
  elapsed_ms := fun t1 t0 => Z.of_nat t1 - Z.of_nat t0;
  DateTime := nat;
  utcnow := tick;
  isoformat := fun _ => "2024-01-01T12:00:00";
  str_http := fun code detail => detail;
  decode_utf8 := fun bytes => inr (string_of_list_ascii bytes);
  llm_call := complete;
  buffer_string := render;
  split_text := split;
  embed_documents := embed;
  similarity_search := search;
  stuff_prompt := fun docs q =>
    String.concat " " (map page_content docs) +:+ " " +:+ q
|}.

(** The world at start: time 0, the given outcomes scripted. *)
Definition start (llm : list (exn + string)) (emb : list (option exn))
    : Sys :=
  boot ∅ (mkScript 0 llm emb).

(** A text of [n] characters. *)
Fixpoint text_of_length (n : nat) : string :=
  match n with
  | O => EmptyString
  | S n' => String "a" (text_of_length n')
  end.

Definition upload (name content : string) : request :=
  PostUpload (mkUploadFile name (list_ascii_of_string content)) "text".

(** A running service, one session ["s1"] after one chat. *)
Definition one_chat : Sys :=
  run [PostChat (mkChatRequest "Hi" (Some "s1"))] (start [] []).

(** A running service holding one document of 250 characters. *)
Definition one_document : Sys :=
  run [upload "notes.txt" (text_of_length 250)] (start [] []).


(** The same backend with a decoder that refuses the byte [0xFF], which no
    UTF-8 text contains. *)
Definition strict_decode (bytes : list ascii) : exn + string :=
  if existsb (fun b => (nat_of_ascii b =? 255)%nat) bytes
  then inl (Exception "invalid start byte")
  else inr (string_of_list_ascii bytes).

Definition strict : Backend := {|
  World := script;
  Time := nat;
  time_time := tick;
  elapsed_ms := fun t1 t0 => Z.of_nat t1 - Z.of_nat t0;
  DateTime := nat;
  utcnow := tick;
  isoformat := fun _ => "2024-01-01T12:00:00";
  str_http := fun code detail => detail;
  decode_utf8 := strict_decode;
  llm_call := complete;
  buffer_string := render;
  split_text := split;
  embed_documents := embed;
  similarity_search := search;
  stuff_prompt := fun docs q =>
    String.concat " " (map page_content docs) +:+ " " +:+ q
|}.

(** A service where the first upload failed at the embedding. *)
Definition one_failed_upload : Sys :=
  run [upload "notes.txt" "alpha"]
      (start [] [Some (Exception "embedding failed")]).

End Demo.

(** ** Properties *)

(** Unfolds the monad so that a computation reads as a function of the
  state. *)
Ltac unfold_M :=
unfold mbind, mret, M_bind, M_ret, try_except, raise, gets, modify,
  external, external_exn in *.

Ltac destruct_call :=
  match goal with
  | |- context [time_time ?w] => destruct (time_time w) as [? ?] eqn:?
  | |- context [utcnow ?w] => destruct (utcnow w) as [? ?] eqn:?
  | |- context [llm_call ?p ?w] =>
      destruct (llm_call p w) as [[?|?] ?] eqn:?
  | |- context [similarity_search ?i ?q ?k ?w] =>
      destruct (similarity_search i q k w) as [[?|?] ?] eqn:?
  | |- context [embed_documents ?t ?w] =>
      destruct (embed_documents t w) as [[?|] ?] eqn:?
  end; simpl.

Section Properties.
Context {B : Backend}.

Lemma check_ollama_connection_spec (s : Sys) :
  exists s', check_ollama_connection s = (inr (llm_up (world s)), s')
    /\ svc s' = svc s /\ heap s' = heap s /\ next_loc s' = next_loc s.
Proof.
  unfold check_ollama_connection, llm_invoke, llm_up. unfold_M.
  destruct (llm_call "Hello" (world s)) as [[e|r] w]; simpl; eauto.
Qed.

(** C8: [check_ollama_connection] always returns a boolean, [true] exactly
    when the probe call returns and [false] when it raises; the health route
    answers 200 in both cases, with [healthy]/[connected] in the first and
    [degraded]/[disconnected] in the second. *)
Theorem health_always_200 (s : Sys) :
  let up := llm_up (world s) in
  (exists s', check_ollama_connection s = (inr up, s')) /\
  (exists now s',
     serve health_check s =
       (mkResponse 200
          (inl (mkHealthResponse (if up then "healthy" else "degraded") now
                  (if up then "connected" else "disconnected"))), s')).
Proof.
  split.
  - destruct (check_ollama_connection_spec s) as (s' & H & _); eauto.
  - unfold serve, health_check, check_ollama_connection, llm_invoke, llm_up,
      datetime_utcnow. unfold_M.
    destruct (llm_call "Hello" (world s)) as [[e|r] w]; simpl;
      match goal with |- context [utcnow ?w] => destruct (utcnow w) end;
      simpl; eauto.
Qed.

(** *** Ingestion *)

Lemma add_document_cases (content fname document_type : string) (s : Sys) :
  let now := fst (utcnow (world s)) in
  let doc := new_document content fname document_type now in
  let r := embed_documents (map page_content (to_index s doc))
             (snd (utcnow (world s))) in
  exists s',
    match fst r with
    | Some e =>
        add_document content fname document_type s = (inl e, s')
        /\ vector_store (svc s') = vector_store (svc s)
    | None =>
        add_document content fname document_type s = (inr tt, s')
        /\ vector_store (svc s') = Some (next_index s doc)
    end
    /\ documents (svc s') = documents (svc s) ++ [doc]
    /\ sessions (svc s') = sessions (svc s)
    /\ heap s' = heap s /\ next_loc s' = next_loc s
    /\ world s' = snd r.
Proof.
  unfold add_document, FAISS_from_documents, datetime_utcnow, next_index,
    to_index, new_document.
  unfold_M. simpl.
  destruct (utcnow (world s)) as [now w1]; simpl.
  destruct (vector_store (svc s)) as [index|] eqn:Hstore; simpl;
    match goal with |- context [embed_documents ?t ?w] =>
      destruct (embed_documents t w) as [[e|] w2] end;
    simpl; eexists; (split; [split; [reflexivity|]|]); simpl;
    rewrite ?Hstore; repeat split; reflexivity.
Qed.

Lemma add_document_ok (content fname document_type : string) (s s' : Sys) :
  add_document content fname document_type s = (inr tt, s') ->
  let doc := new_document content fname document_type
               (fst (utcnow (world s))) in
  documents (svc s') = documents (svc s) ++ [doc]
  /\ vector_store (svc s') = Some (next_index s doc)
  /\ sessions (svc s') = sessions (svc s)
  /\ heap s' = heap s /\ next_loc s' = next_loc s.
Proof.
  intros Hrun doc.
  destruct (add_document_cases content fname document_type s)
    as (s1 & Hcase & Hdocs & Hsess & Hheap & Hnext & _).
  destruct (fst (embed_documents _ _)) as [e|].
  - destruct Hcase as [Hcase _]. rewrite Hrun in Hcase. discriminate.
  - destruct Hcase as [Hcase Hstore]. rewrite Hrun in Hcase.
    injection Hcase as <-. auto.
Qed.

Lemma split_documents_bounded `{!BackendLaws B} (size overlap : nat)
    (docs : list Document) (c : Document) :
  c ∈ split_documents size overlap docs ->
  (Py.len (page_content c) <= size)%nat.
Proof.
  unfold split_documents. rewrite list_elem_of_In, in_flat_map.
  intros (d & _ & Hc). apply in_map_iff in Hc as (t & <- & Ht).
  simpl. apply list_elem_of_In in Ht. eapply split_bounded, Ht.
Qed.

(** C1: after a first document, a second successful [add_document] puts
    the whole new document into the index, not its chunks: with a text
    longer than the chunk size, the index holds an entry that is no chunk
    of the ingested documents. *)
Theorem index_entry_not_a_chunk `{!BackendLaws B}
    (c1 f1 t1 c2 f2 t2 : string) (s s1 s2 : Sys) :
  vector_store (svc s) = None ->
  add_document c1 f1 t1 s = (inr tt, s1) ->
  add_document c2 f2 t2 s1 = (inr tt, s2) ->
  (1000 < Py.len c2)%nat ->
  exists index d,
    vector_store (svc s2) = Some index
    /\ d ∈ index
    /\ d ∉ split_documents 1000 200 (documents (svc s2)).
Proof.
  intros Hnone H1 H2 Hlong.
  apply add_document_ok in H1 as (_ & Hstore1 & _).
  apply add_document_ok in H2 as (_ & Hstore2 & _).
  unfold next_index in Hstore1, Hstore2. rewrite Hnone in Hstore1.
  rewrite Hstore1 in Hstore2. unfold to_index in Hstore2.
  rewrite Hstore1 in Hstore2.
  eexists _, _. split; [exact Hstore2|]. split.
  - unfold merge_from. apply elem_of_app. right. apply list_elem_of_singleton.
    reflexivity.
  - intros Hin. apply split_documents_bounded in Hin. simpl in Hin.
    unfold Py.len in *. lia.
Qed.

(** C9: when embedding fails inside [add_document], the exception reaches
    the caller, the document list has already grown by the new document
    and the index is what it was. *)
Theorem add_document_not_atomic (content fname document_type : string)
    (s : Sys) (e : exn) :
  let doc := new_document content fname document_type
               (fst (utcnow (world s))) in
  fst (embed_documents (map page_content (to_index s doc))
         (snd (utcnow (world s)))) = Some e ->
  exists s',
    add_document content fname document_type s = (inl e, s')
    /\ get_document_count s' = (inr (S (length (documents (svc s)))), s')
    /\ documents (svc s') = documents (svc s) ++ [doc]
    /\ vector_store (svc s') = vector_store (svc s).
Proof.
  intros doc Hfail.
  destruct (add_document_cases content fname document_type s)
    as (s' & Hcase & Hdocs & _).
  fold doc in Hcase, Hdocs. rewrite Hfail in Hcase.
  destruct Hcase as [Hrun Hstore].
  exists s'. repeat split; try assumption.
  unfold get_document_count, gets. rewrite Hdocs, length_app. simpl.
  do 2 f_equal. lia.
Qed.

(** C2: an upload whose name ends in neither [.txt] nor [.md] is answered
    with status 500, the 400 raised for it being caught by the handler's
    own [except Exception]; the service is left as it was. *)
Theorem upload_bad_extension_is_500 (file : UploadFile)
    (document_type : string) (s : Sys) :
  Py.endswith_any (filename file) [".txt"; ".md"] = false ->
  serve (upload_document file document_type) s =
    (mkResponse 500
       (inr ("Erro ao processar documento: "
             +:+ str_http 400 "Apenas arquivos .txt e .md são suportados")),
     s).
Proof.
  intros Hext. unfold serve, upload_document. unfold_M.
  rewrite Hext. reflexivity.
Qed.

(** C4: with no index built, [get_rag_response] answers the fixed message
    with no sources, whatever the question and the session; it reads the
    clock twice and makes no other call, and the service is unchanged. *)
Theorem rag_without_documents (question : string)
    (session_id : option string) (s : Sys) :
  vector_store (svc s) = None ->
  exists latency s',
    get_rag_response question session_id s
      = (inr (no_documents_message, [], latency), s')
    /\ trace s' = trace s ++ [CallTime; CallTime]
    /\ svc s' = svc s /\ heap s' = heap s.
Proof.
  intros Hnone. unfold get_rag_response, time_now. unfold_M.
  destruct (time_time (world s)) as [t0 w1]; simpl. rewrite Hnone. simpl.
  destruct (time_time w1) as [t1 w2]; simpl.
  eexists _, _. split; [reflexivity|]. simpl.
  rewrite <- app_assoc. auto.
Qed.

(** *** Session memories *)

Lemma get_or_create_anonymous (session_id : option string) (s : Sys) :
  Py.truthy_opt session_id = false ->
  _get_or_create_session_memory session_id s = (inr (next_loc s), alloc s).
Proof.
  intros H. unfold _get_or_create_session_memory. rewrite H. reflexivity.
Qed.

Lemma get_or_create_known (sid : string) (l : loc) (s : Sys) :
  Py.truthy sid = true ->
  sessions (svc s) !! sid = Some l ->
  _get_or_create_session_memory (Some sid) s = (inr l, s).
Proof.
  intros Ht Hl. unfold _get_or_create_session_memory. simpl. rewrite Ht.
  unfold_M. simpl. rewrite Hl.
  destruct (decide (Some l = None)) as [?|_]; [discriminate|].
  simpl. rewrite Hl. reflexivity.
Qed.

Lemma get_or_create_new (sid : string) (s : Sys) :
  Py.truthy sid = true ->
  sessions (svc s) !! sid = None ->
  _get_or_create_session_memory (Some sid) s =
    (inr (next_loc s),
     with_svc (fun q => set_sessions (<[sid := next_loc s]> (sessions q)) q)
              (alloc s)).
Proof.
  intros Ht Hl. unfold _get_or_create_session_memory. simpl. rewrite Ht.
  unfold_M. simpl. rewrite Hl.
  destruct (decide (None = None)) as [_|?]; [|congruence].
  simpl. rewrite lookup_insert_eq. reflexivity.
Qed.

Lemma get_or_create_spec (session_id : option string) (s : Sys) :
  exists s1,
    _get_or_create_session_memory session_id s
      = (inr (memory_of session_id s), s1)
    /\ sessions (svc s1) = sessions_after session_id s
    /\ vector_store (svc s1) = vector_store (svc s)
    /\ documents (svc s1) = documents (svc s)
    /\ model_name (svc s1) = model_name (svc s)
    /\ base_url (svc s1) = base_url (svc s)
    /\ world s1 = world s /\ trace s1 = trace s
    /\ next_loc s1 = match known_memory session_id s with
                     | Some _ => next_loc s
                     | None => S (next_loc s)
                     end
    /\ forall l, buffer s1 l =
         if decide (l = memory_of session_id s)
         then prior_history session_id s
         else buffer s l.
Proof.
  unfold sessions_after, prior_history, memory_of, known_memory.
  destruct (Py.truthy_opt session_id) eqn:Ht.
  - destruct session_id as [sid|]; [simpl in *|discriminate].
    destruct (sessions (svc s) !! sid) as [l|] eqn:Hl; simpl.
    + rewrite (get_or_create_known _ _ _ Ht Hl). exists s.
      rewrite insert_id by assumption. repeat split; try reflexivity.
      intros l'. destruct (decide (l' = l)) as [->|]; reflexivity.
    + rewrite (get_or_create_new _ _ Ht Hl). eexists. split; [reflexivity|].
      simpl. repeat split; try reflexivity.
      intros l'. unfold buffer. simpl.
      destruct (decide (l' = next_loc s)) as [->|Hne].
      * by rewrite lookup_insert_eq.
      * by rewrite lookup_insert_ne.
  - rewrite (get_or_create_anonymous _ _ Ht). eexists. split; [reflexivity|].
    simpl. repeat split; try reflexivity.
    intros l'. unfold buffer. simpl.
    destruct (decide (l' = next_loc s)) as [->|Hne].
    + by rewrite lookup_insert_eq.
    + by rewrite lookup_insert_ne.
Qed.

(** What one call of [get_chat_response] does, in full. *)
Lemma get_chat_response_spec (message : string)
    (session_id : option string) (s : Sys) :
  let t0 := fst (time_time (world s)) in
  let w1 := snd (time_time (world s)) in
  let prompt := chat_prompt message session_id s in
  let r := fst (llm_call prompt w1) in
  let w2 := snd (llm_call prompt w1) in
  let t1 := fst (time_time w2) in
  let w3 := snd (time_time w2) in
  exists s',
    get_chat_response message session_id s
      = (inr (chat_answer r, elapsed_ms t1 t0), s')
    /\ world s' = w3
    /\ trace s' = trace s ++ [CallTime; CallLLM prompt; CallTime]
    /\ sessions (svc s') = sessions_after session_id s
    /\ vector_store (svc s') = vector_store (svc s)
    /\ documents (svc s') = documents (svc s)
    /\ model_name (svc s') = model_name (svc s)
    /\ base_url (svc s') = base_url (svc s)
    /\ next_loc s' = match known_memory session_id s with
                     | Some _ => next_loc s
                     | None => S (next_loc s)
                     end
    /\ forall l, buffer s' l =
         if decide (l = memory_of session_id s)
         then prior_history session_id s ++ new_turns message r
         else buffer s l.
Proof.
  intros t0 w1 prompt r w2 t1 w3.
  subst t0 w1 prompt r w2 t1 w3. unfold chat_prompt.
  unfold get_chat_response, time_now. unfold_M.
  destruct (time_time (world s)) as [t0 w1] eqn:Ht0. simpl.
  set (s0 := mkSys (svc s) (heap s) (next_loc s) w1 (trace s ++ [CallTime])).
  destruct (get_or_create_spec session_id s0)
    as (s1 & Hgoc & Hsess & Hvs & Hdocs & Hmn & Hbu & Hw & Htr & Hnext & Hbuf).
  change (memory_of session_id s0) with (memory_of session_id s) in *.
  change (prior_history session_id s0) with (prior_history session_id s) in *.
  change (known_memory session_id s0) with (known_memory session_id s) in *.
  change (sessions_after session_id s0) with (sessions_after session_id s) in *.
  change (next_loc s0) with (next_loc s) in *.
  subst s0. simpl in Hvs, Hdocs, Hmn, Hbu, Hw, Htr, Hbuf.
  rewrite Hgoc. unfold LLMChain_run, llm_invoke, save_context. unfold_M. simpl.
  rewrite (Hbuf (memory_of session_id s)).
  destruct (decide (memory_of session_id s = memory_of session_id s))
    as [_|?]; [|congruence].
  rewrite Hw. simpl.
  destruct (llm_call _ w1) as [[e|response] w2] eqn:Hllm; simpl;
    destruct (time_time w2) as [t1 w3] eqn:Ht1; simpl;
    (eexists; split; [reflexivity|]); simpl;
    rewrite Htr, <- !app_assoc; simpl;
    repeat (split; [first [reflexivity|assumption]|]).
  - intros l. rewrite app_nil_r. apply Hbuf.
  - intros l. unfold buffer at 1. simpl.
    destruct (decide (l = memory_of session_id s)) as [->|Hne].
    + rewrite lookup_insert_eq. simpl. f_equal.
      transitivity (buffer s1 (memory_of session_id s)); [reflexivity|].
      rewrite Hbuf.
      destruct (decide (memory_of session_id s = memory_of session_id s));
        [done|congruence].
    + rewrite lookup_insert_ne by congruence.
      specialize (Hbuf l). unfold buffer in Hbuf at 1. rewrite Hbuf.
      destruct (decide (l = memory_of session_id s)); [congruence|done].
Qed.

(** C5: [get_chat_response] always returns a pair.  When the completion
    call fails with [e], the answer is the apology followed by [str(e)],
    and the latency is measured at the clock reading taken after the
    failure. *)
Theorem get_chat_response_never_raises (message : string)
    (session_id : option string) (s : Sys) :
  let t0 := fst (time_time (world s)) in
  let w1 := snd (time_time (world s)) in
  let outcome := llm_call (chat_prompt message session_id s) w1 in
  let t1 := fst (time_time (snd outcome)) in
  exists s',
    get_chat_response message session_id s =
      (inr (match fst outcome with
            | inl e => chat_apology +:+ str_exn e
            | inr response => Py.strip response
            end,
            elapsed_ms t1 t0), s').
Proof.
  intros t0 w1 outcome t1.
  destruct (get_chat_response_spec message session_id s) as (s' & H & _).
  exists s'. rewrite H. subst outcome t1 t0 w1. unfold chat_answer.
  destruct (fst (llm_call _ _)); reflexivity.
Qed.

(** *** The effect of the routes on the service *)

(** The sources [get_rag_response] reports are the formatted documents
    of one retrieval of at most three, or none. *)
Lemma get_rag_response_spec (question : string)
    (session_id : option string) (s : Sys) :
  exists answer srcs latency s',
    get_rag_response question session_id s
      = (inr (answer, srcs, latency), s')
    /\ svc s' = svc s /\ heap s' = heap s /\ next_loc s' = next_loc s
    /\ (srcs = []
        \/ exists index ds w w',
             vector_store (svc s) = Some index
             /\ similarity_search index question 3 w = (inr ds, w')
             /\ srcs = map format_source ds).
Proof.
  unfold get_rag_response, RetrievalQA_call, llm_invoke, time_now.
  unfold_M. destruct_call.
  destruct (vector_store (svc s)) as [index|] eqn:Hstore; simpl.
  - repeat destruct_call;
      (eexists _, _, _, _; split; [reflexivity|]); simpl;
      repeat (split; [reflexivity|]); eauto 10.
  - destruct_call. eexists _, _, _, _. split; [reflexivity|]. simpl. auto.
Qed.

Lemma clear_session_memory_spec (sid : string) (s : Sys) :
  exists s',
    clear_session_memory sid s = (inr tt, s')
    /\ sessions (svc s') = delete sid (sessions (svc s))
    /\ vector_store (svc s') = vector_store (svc s)
    /\ documents (svc s') = documents (svc s)
    /\ heap s' = heap s /\ next_loc s' = next_loc s
    /\ world s' = world s /\ trace s' = trace s
    /\ (sessions (svc s) !! sid = None -> s' = s).
Proof.
  unfold clear_session_memory. unfold_M. simpl.
  destruct (decide (is_Some (sessions (svc s) !! sid))) as [Hin|Hout].
  - eexists. split; [reflexivity|]. simpl. repeat split; try reflexivity.
    intros Hnone. rewrite Hnone in Hin. by destruct Hin.
  - exists s. split; [reflexivity|].
    apply eq_None_not_Some in Hout.
    rewrite delete_id by assumption. auto 10.
Qed.

Lemma buffer_heap (s s' : Sys) :
  heap s' = heap s -> forall l, buffer s' l = buffer s l.
Proof. intros H l. unfold buffer. by rewrite H. Qed.

Lemma handle_memory_step (r : request) (s : Sys) :
  memory_step s (handle r s) r.
Proof.
  destruct r as [c| |file dt|q|sid|]; unfold handle, serve.
  - destruct (get_chat_response_spec (message c) (chat_session_id c) s)
      as (s1 & Hrun & _ & _ & Hsess & _ & _ & _ & _ & Hnext & Hbuf).
    unfold chat. unfold_M. rewrite Hrun. unfold datetime_utcnow, external.
    destruct (utcnow (world s1)) as [now w]. eapply step_chat; simpl; eauto.
  - destruct (check_ollama_connection_spec s)
      as (s1 & Hrun & Hsvc & Hheap & Hnext).
    unfold health_check. unfold_M. rewrite Hrun.
    unfold datetime_utcnow, external. destruct (utcnow (world s1)) as [now w].
    apply step_other; simpl; try congruence.
    by apply buffer_heap.
  - unfold upload_document. unfold_M.
    destruct (negb (Py.endswith_any (filename file) [".txt"; ".md"]));
      simpl; [by apply step_other|].
    destruct (decode_utf8 (file_bytes file)) as [e|text]; simpl;
      [destruct e; by apply step_other|].
    destruct (negb (Py.truthy (Py.strip text))); simpl;
      [by apply step_other|].
    destruct (add_document_cases text (filename file) dt s)
      as (s1 & Hcase & _ & Hsess & Hheap & Hnext & _).
    destruct (fst (embed_documents _ _)) as [e|].
    + destruct Hcase as [-> _]. simpl.
      apply step_other; simpl; try congruence. by apply buffer_heap.
    + destruct Hcase as [-> _]. simpl.
      apply step_other; simpl; try congruence. by apply buffer_heap.
  - destruct (get_rag_response_spec (question q) (rag_session_id q) s)
      as (a & srcs & lat & s1 & Hrun & Hsvc & Hheap & Hnext & _).
    unfold ask_documents. unfold_M. rewrite Hrun.
    unfold datetime_utcnow, external. destruct (utcnow (world s1)) as [now w].
    apply step_other; simpl; try congruence. by apply buffer_heap.
  - destruct (clear_session_memory_spec sid s)
      as (s1 & Hrun & Hsess & _ & _ & Hheap & Hnext & _).
    unfold clear_session. unfold_M. rewrite Hrun. simpl.
    apply step_delete; try assumption. by apply buffer_heap.
  - destruct (check_ollama_connection_spec s)
      as (s1 & Hrun & Hsvc & Hheap & Hnext).
    unfold stats_endpoint, get_stats, get_document_count, get_session_count.
    unfold_M. simpl. rewrite Hrun. simpl.
    apply step_other; simpl; try congruence. by apply buffer_heap.
Qed.

Lemma memory_of_cases (session_id : option string) (s : Sys) :
  (exists sid, session_id = Some sid /\ Py.truthy sid = true
     /\ sessions (svc s) !! sid = Some (memory_of session_id s)
     /\ known_memory session_id s = Some (memory_of session_id s)
     /\ prior_history session_id s = buffer s (memory_of session_id s))
  \/ (known_memory session_id s = None
      /\ memory_of session_id s = next_loc s
      /\ prior_history session_id s = []).
Proof.
  unfold memory_of, prior_history, known_memory.
  destruct session_id as [sid|]; simpl; [|by right].
  destruct (Py.truthy sid) eqn:Ht; [|by right].
  destruct (sessions (svc s) !! sid) as [l|] eqn:Hl; simpl; [|by right].
  left. exists sid. auto.
Qed.

Lemma sessions_after_lookup (session_id : option string) (s : Sys)
    (sid : string) (l : loc) :
  sessions_after session_id s !! sid = Some l ->
  sessions (svc s) !! sid = Some l
  \/ (session_id = Some sid /\ Py.truthy sid = true
      /\ l = memory_of session_id s).
Proof.
  unfold sessions_after.
  destruct session_id as [sid'|]; simpl; [|by left].
  destruct (Py.truthy sid') eqn:Ht; [|by left].
  destruct (decide (sid' = sid)) as [->|Hne].
  - rewrite lookup_insert_eq. intros [= <-]. by right.
  - rewrite lookup_insert_ne by assumption. by left.
Qed.

Lemma memory_step_wf (r : request) (s s' : Sys) :
  memory_step s s' r -> wf s -> wf s'.
Proof.
  intros Hstep Hwf sid l Hl.
  destruct Hstep as [c turns Hsess Hnext _|sid' Hsess Hnext _
                    |r _ _ Hsess Hnext _].
  - rewrite Hsess in Hl.
    apply sessions_after_lookup in Hl as [Hl|(_ & _ & ->)].
    + apply Hwf in Hl. destruct (known_memory _ _); lia.
    + destruct (memory_of_cases (chat_session_id c) s)
        as [(x & _ & _ & Hin & Hk & _)|(Hk & -> & _)].
      * rewrite Hk in Hnext. apply Hwf in Hin. lia.
      * rewrite Hk in Hnext. lia.
  - rewrite Hsess in Hl. apply lookup_delete_Some in Hl as [_ Hl].
    apply Hwf in Hl. lia.
  - rewrite Hsess in Hl. apply Hwf in Hl. lia.
Qed.

Lemma wf_boot (env : gmap string string) (w : World) : wf (boot env w).
Proof. intros sid l. simpl. by rewrite lookup_empty. Qed.

Lemma run_snoc (rs : list request) (r : request) (s : Sys) :
  run (rs ++ [r]) s = handle r (run rs s).
Proof. unfold run. by rewrite fold_left_app. Qed.

Lemma run_cons (rs : list request) (r : request) (s : Sys) :
  run (r :: rs) s = run rs (handle r s).
Proof. reflexivity. Qed.

Lemma wf_run (rs : list request) (s : Sys) : wf s -> wf (run rs s).
Proof.
  revert s. induction rs as [|r rs IH]; intros s Hwf; [assumption|].
  rewrite run_cons. apply IH. eapply memory_step_wf; [|exact Hwf].
  apply handle_memory_step.
Qed.

Lemma wf_reachable (s : Sys) : reachable s -> wf s.
Proof. intros (env & w & rs & ->). apply wf_run, wf_boot. Qed.

(** A session entry survives every request but its own deletion, and its
    history only grows. *)
Lemma memory_step_keeps (r : request) (s s' : Sys) (sid : string)
    (m : loc) :
  memory_step s s' r ->
  r <> DeleteSession sid ->
  sessions (svc s) !! sid = Some m ->
  (m < next_loc s)%nat ->
  sessions (svc s') !! sid = Some m
  /\ (m < next_loc s')%nat
  /\ buffer s m `prefix_of` buffer s' m.
Proof.
  intros Hstep Hr Hm Hlt.
  destruct Hstep as [c turns Hsess Hnext Hbuf|sid' Hsess Hnext Hbuf
                    |r _ _ Hsess Hnext Hbuf].
  - rewrite Hsess, Hnext, Hbuf. split; [|split].
    + unfold sessions_after.
      destruct (memory_of_cases (chat_session_id c) s)
        as [(x & -> & Hx & Hin & _)|(Hk & _)].
      * simpl. rewrite Hx.
        destruct (decide (x = sid)) as [->|Hne].
        -- rewrite lookup_insert_eq. congruence.
        -- by rewrite lookup_insert_ne.
      * unfold known_memory in Hk.
        destruct (Py.truthy_opt (chat_session_id c)); [|assumption].
        destruct (decide (default "" (chat_session_id c) = sid)) as [E|Hne].
        -- rewrite E in Hk. congruence.
        -- by rewrite lookup_insert_ne.
    + destruct (known_memory _ _); lia.
    + destruct (decide (m = memory_of (chat_session_id c) s)) as [E|_];
        [|reflexivity].
      destruct (memory_of_cases (chat_session_id c) s)
        as [(_ & _ & _ & _ & _ & ->)|(_ & E' & _)].
      * rewrite <- E. by apply prefix_app_r.
      * lia.
  - rewrite Hsess, Hnext, Hbuf. split; [|done].
    rewrite lookup_delete_ne; [assumption|congruence].
  - by rewrite Hsess, Hnext, Hbuf.
Qed.

Lemma run_keeps (rs : list request) (s : Sys) (sid : string) (m : loc) :
  Forall (fun r => r <> DeleteSession sid) rs ->
  sessions (svc s) !! sid = Some m ->
  (m < next_loc s)%nat ->
  sessions (svc (run rs s)) !! sid = Some m
  /\ (m < next_loc (run rs s))%nat
  /\ buffer s m `prefix_of` buffer (run rs s) m.
Proof.
  intros Hrs. revert s.
  induction Hrs as [|r rs Hr _ IH]; intros s Hm Hlt; [done|].
  rewrite run_cons.
  destruct (memory_step_keeps r s (handle r s) sid m
              (handle_memory_step r s) Hr Hm Hlt) as (Hm' & Hlt' & Hpre).
  destruct (IH _ Hm' Hlt') as (? & ? & ?).
  repeat split; try assumption. by etrans.
Qed.

(** A memory no session refers to is never reached again. *)
Lemma memory_step_private (r : request) (s s' : Sys) (m : loc) :
  memory_step s s' r ->
  (m < next_loc s)%nat -> unshared m s ->
  (m < next_loc s')%nat /\ unshared m s' /\ buffer s' m = buffer s m.
Proof.
  intros Hstep Hlt Hun.
  assert (Hne : forall c, memory_of c s <> m).
  { intros c.
    destruct (memory_of_cases c s) as [(x & _ & _ & Hin & _)|(_ & -> & _)].
    - by apply Hun in Hin.
    - lia. }
  destruct Hstep as [c turns Hsess Hnext Hbuf|sid' Hsess Hnext Hbuf
                    |r _ _ Hsess Hnext Hbuf].
  - rewrite Hnext, Hbuf. split; [|split].
    + destruct (known_memory _ _); lia.
    + intros sid l Hl. rewrite Hsess in Hl.
      apply sessions_after_lookup in Hl as [Hl|(_ & _ & ->)]; eauto.
    + destruct (decide (m = memory_of (chat_session_id c) s)) as [E|_];
        [|reflexivity].
      symmetry in E. by apply Hne in E.
  - rewrite Hnext, Hbuf. repeat split; try done.
    intros sid l Hl. rewrite Hsess in Hl.
    apply lookup_delete_Some in Hl as [_ Hl]. eauto.
  - rewrite Hnext, Hbuf. repeat split; try done.
    intros sid l Hl. rewrite Hsess in Hl. eauto.
Qed.

Lemma run_private (rs : list request) (s : Sys) (m : loc) :
  (m < next_loc s)%nat -> unshared m s ->
  (m < next_loc (run rs s))%nat
  /\ unshared m (run rs s)
  /\ buffer (run rs s) m = buffer s m.
Proof.
  revert s. induction rs as [|r rs IH]; intros s Hlt Hun; [done|].
  rewrite run_cons.
  destruct (memory_step_private r s (handle r s) m
              (handle_memory_step r s) Hlt Hun) as (Hlt' & Hun' & Hbuf).
  destruct (IH _ Hlt' Hun') as (? & ? & ?).
  repeat split; try assumption. congruence.
Qed.

(** C10: a chat without session identifier leaves the session map as it
    is, so the session count is the same after any number of them. *)
Theorem anonymous_chat_keeps_sessions (messages : list string) (s : Sys) :
  (forall message,
      sessions (svc (snd (get_chat_response message None s)))
      = sessions (svc s))
  /\ sessions (svc (run (anonymous_chats messages) s)) = sessions (svc s)
  /\ fst (get_session_count (run (anonymous_chats messages) s))
     = fst (get_session_count s).
Proof.
  split.
  - intros message.
    destruct (get_chat_response_spec message None s)
      as (s' & -> & _ & _ & Hsess & _).
    exact Hsess.
  - assert (H : sessions (svc (run (anonymous_chats messages) s))
                = sessions (svc s)).
    { revert s. induction messages as [|m ms IH]; intros s; [reflexivity|].
      change (anonymous_chats (m :: ms))
        with (PostChat (mkChatRequest m None) :: anonymous_chats ms).
      rewrite run_cons, IH.
      pose proof (handle_memory_step (PostChat (mkChatRequest m None)) s)
        as Hstep.
      inversion Hstep as [c turns Hsess Hnext Hbuf Hc|
                          |r Hr Hd Hsess Hnext Hbuf Hc].
      - subst c. exact Hsess.
      - exfalso. eapply Hr. reflexivity. }
    split; [exact H|]. unfold get_session_count, gets. simpl. by rewrite H.
Qed.

(** C7: [clear_session_memory] never raises and removes the entry of the
    identifier; without an entry it changes nothing; the route answers
    200.  A chat under the identifier after clearing gets the same answer,
    makes the same calls and records the same history as in a service
    that never saw the identifier. *)
Theorem clear_then_chat_is_new_session (sid message : string)
    (s new : Sys) :
  sessions (svc new) !! sid = None ->
  world new = world s ->
  let cleared := snd (clear_session_memory sid s) in
  let after_clear := get_chat_response message (Some sid) cleared in
  let after_new := get_chat_response message (Some sid) new in
  clear_session_memory sid s = (inr tt, cleared)
  /\ sessions (svc cleared) = delete sid (sessions (svc s))
  /\ (sessions (svc s) !! sid = None -> cleared = s)
  /\ status_code (fst (serve (clear_session sid) s)) = 200
  /\ prior_history (Some sid) cleared = []
  /\ fst after_clear = fst after_new
  /\ world (snd after_clear) = world (snd after_new)
  /\ (exists calls,
        trace (snd after_clear) = trace cleared ++ calls
        /\ trace (snd after_new) = trace new ++ calls)
  /\ session_history sid (snd after_clear)
     = session_history sid (snd after_new).
Proof.
  intros Hnew Hworld cleared after_clear after_new.
  destruct (clear_session_memory_spec sid s)
    as (s1 & Hrun & Hsess & _ & _ & _ & _ & Hw & _ & Hid).
  assert (Hcleared : cleared = s1) by (unfold cleared; by rewrite Hrun).
  assert (Hgone : sessions (svc cleared) !! sid = None).
  { rewrite Hcleared, Hsess. apply lookup_delete_eq. }
  assert (Hk : forall x, sessions (svc x) !! sid = None ->
                         known_memory (Some sid) x = None).
  { intros x Hx. unfold known_memory. simpl. rewrite Hx.
    by destruct (Py.truthy sid). }
  assert (Hp : forall x, sessions (svc x) !! sid = None ->
                         prior_history (Some sid) x = []).
  { intros x Hx. unfold prior_history. by rewrite Hk. }
  assert (Hprompt : chat_prompt message (Some sid) cleared
                    = chat_prompt message (Some sid) new).
  { unfold chat_prompt. by rewrite !Hp. }
  assert (Hw' : world cleared = world new) by congruence.
  split; [by rewrite Hrun, Hcleared|].
  split; [by rewrite Hcleared|].
  split; [intros Hnone; rewrite Hcleared; by apply Hid|].
  split.
  { unfold serve, clear_session. unfold_M. by rewrite Hrun. }
  split; [by apply Hp|].
  destruct (get_chat_response_spec message (Some sid) cleared)
    as (a & Ha & Hwa & Hta & Hsa & _ & _ & _ & _ & _ & Hba).
  destruct (get_chat_response_spec message (Some sid) new)
    as (b & Hb & Hwb & Htb & Hsb & _ & _ & _ & _ & _ & Hbb).
  unfold after_clear, after_new. rewrite Ha, Hb. simpl.
  rewrite Hprompt, Hw' in *.
  split; [reflexivity|]. split; [congruence|].
  split; [eauto|].
  unfold session_history. rewrite Hsa, Hsb. unfold sessions_after. simpl.
  destruct (Py.truthy sid) eqn:Ht.
  - rewrite !lookup_insert_eq. simpl. rewrite Hba, Hbb.
    rewrite !decide_True by reflexivity. by rewrite !Hp.
  - by rewrite Hgone, Hnew.
Qed.

(** C6, on the code: with an identifier that is absent or empty, the
    memory returned is a new, empty one that no session refers to; no
    later request writes to it and no later call returns it, and a later
    call without identifier again gets an empty memory.  With a non-empty
    identifier, the memory returned is the session's; as long as the
    session is not deleted, every later call with the identifier returns
    that same memory, whose history has only grown. *)
Theorem get_or_create_sharing (session_id : option string) (s : Sys) :
  wf s ->
  exists m s1,
    _get_or_create_session_memory session_id s = (inr m, s1)
    /\ if Py.truthy_opt session_id
       then
         sessions (svc s1) !! default "" session_id = Some m
         /\ forall rs,
              Forall (fun r => r <> DeleteSession (default "" session_id)) rs ->
              _get_or_create_session_memory session_id (run rs s1)
                = (inr m, run rs s1)
              /\ buffer s1 m `prefix_of` buffer (run rs s1) m
       else
         m = next_loc s
         /\ buffer s1 m = []
         /\ unshared m s1
         /\ sessions (svc s1) = sessions (svc s)
         /\ forall rs session_id',
              buffer (run rs s1) m = []
              /\ exists m' s3,
                   _get_or_create_session_memory session_id' (run rs s1)
                     = (inr m', s3)
                   /\ m' <> m
                   /\ (Py.truthy_opt session_id' = false ->
                       buffer s3 m' = []).
Proof.
  intros Hwf.
  destruct (get_or_create_spec session_id s)
    as (s1 & Hrun & Hsess & _ & _ & _ & _ & _ & _ & Hnext & Hbuf).
  exists (memory_of session_id s), s1. split; [exact Hrun|].
  destruct (Py.truthy_opt session_id) eqn:Ht.
  - destruct session_id as [sid|]; [simpl in *|discriminate].
    assert (Hm : sessions (svc s1) !! sid = Some (memory_of (Some sid) s)).
    { rewrite Hsess. unfold sessions_after. simpl. rewrite Ht.
      apply lookup_insert_eq. }
    assert (Hlt : (memory_of (Some sid) s < next_loc s1)%nat).
    { rewrite Hnext.
      destruct (memory_of_cases (Some sid) s)
        as [(x & _ & _ & Hin & -> & _)|(-> & -> & _)].
      - by apply Hwf in Hin.
      - lia. }
    split; [exact Hm|]. intros rs Hrs.
    destruct (run_keeps rs s1 sid _ Hrs Hm Hlt) as (Hm2 & _ & Hpre).
    split; [|exact Hpre].
    by apply get_or_create_known.
  - assert (Hk : known_memory session_id s = None)
      by (unfold known_memory; by rewrite Ht).
    assert (Hm : memory_of session_id s = next_loc s)
      by (unfold memory_of; by rewrite Hk).
    assert (Hp : prior_history session_id s = [])
      by (unfold prior_history; by rewrite Hk).
    rewrite Hm in *. rewrite Hk in Hnext.
    assert (Hsame : sessions (svc s1) = sessions (svc s)).
    { rewrite Hsess. unfold sessions_after. by rewrite Ht. }
    assert (Hun : unshared (next_loc s) s1).
    { intros sid l Hl. rewrite Hsame in Hl. apply Hwf in Hl. lia. }
    assert (Hempty : buffer s1 (next_loc s) = []).
    { rewrite Hbuf, decide_True by reflexivity. exact Hp. }
    repeat split; try assumption.
    + destruct (run_private rs s1 (next_loc s)) as (_ & _ & ->);
        [lia|assumption|assumption].
    + destruct (run_private rs s1 (next_loc s)) as (Hlt2 & Hun2 & _);
        [lia|assumption|].
      destruct (get_or_create_spec session_id' (run rs s1))
        as (s3 & Hrun3 & _ & _ & _ & _ & _ & _ & _ & _ & Hbuf3).
      exists (memory_of session_id' (run rs s1)), s3.
      split; [exact Hrun3|]. split.
      * destruct (memory_of_cases session_id' (run rs s1))
          as [(x & _ & _ & Hin & _)|(_ & -> & _)].
        -- by apply Hun2 in Hin.
        -- lia.
      * intros Hf. rewrite Hbuf3, decide_True by reflexivity.
        unfold prior_history, known_memory. by rewrite Hf.
Qed.

(** *** Sources of a RAG answer *)

Lemma len_append (a b : string) :
  Py.len (a +:+ b) = (Py.len a + Py.len b)%nat.
Proof.
  unfold Py.len. induction a as [|c a IH]; simpl; [reflexivity|].
  by rewrite IH.
Qed.

Lemma len_slice_to (n : nat) (text : string) :
  (Py.len (Py.slice_to n text) <= n)%nat.
Proof.
  unfold Py.len, Py.slice_to. revert text.
  induction n as [|n IH]; intros [|c text]; simpl; try lia.
  specialize (IH text). lia.
Qed.

Lemma len_source_text (doc : Document) :
  (Py.len (source_text doc) <= 203)%nat.
Proof.
  unfold source_text.
  destruct (200 <? Py.len (page_content doc))%nat eqn:Hlong.
  - rewrite len_append. pose proof (len_slice_to 200 (page_content doc)).
    change (Py.len "...") with 3%nat. lia.
  - apply Nat.ltb_ge in Hlong. lia.
Qed.

Lemma len_format_source (doc : Document) :
  Py.len (format_source doc)
  = (Py.len (source_filename doc) + 3 + Py.len (source_text doc))%nat.
Proof.
  unfold format_source. rewrite !len_append.
  change (Py.len "[") with 1%nat. change (Py.len "] ") with 2%nat. lia.
Qed.

(** What a request can do to the documents and the index. *)
Lemma handle_documents (r : request) (s : Sys) :
  (documents (svc (handle r s)) = documents (svc s)
   /\ vector_store (svc (handle r s)) = vector_store (svc s))
  \/ exists content fname document_type now,
       let doc := new_document content fname document_type now in
       documents (svc (handle r s)) = documents (svc s) ++ [doc]
       /\ (vector_store (svc (handle r s)) = vector_store (svc s)
           \/ vector_store (svc (handle r s)) = Some (next_index s doc)).
Proof.
  destruct r as [c| |file dt|q|sid|]; unfold handle, serve.
  - left.
    destruct (get_chat_response_spec (message c) (chat_session_id c) s)
      as (s1 & Hrun & _ & _ & _ & Hstore & Hdocs & _).
    unfold chat. unfold_M. rewrite Hrun. unfold datetime_utcnow, external.
    destruct (utcnow (world s1)) as [now w]. simpl. auto.
  - left. destruct (check_ollama_connection_spec s) as (s1 & Hrun & Hsvc & _).
    unfold health_check. unfold_M. rewrite Hrun.
    unfold datetime_utcnow, external. destruct (utcnow (world s1)) as [now w].
    simpl. by rewrite Hsvc.
  - unfold upload_document. unfold_M.
    destruct (negb (Py.endswith_any (filename file) [".txt"; ".md"]));
      simpl; [by left|].
    destruct (decode_utf8 (file_bytes file)) as [e|text]; simpl;
      [destruct e; by left|].
    destruct (negb (Py.truthy (Py.strip text))); simpl; [by left|].
    destruct (add_document_cases text (filename file) dt s)
      as (s1 & Hcase & Hdocs & _).
    right. exists text, (filename file), dt, (fst (utcnow (world s))).
    destruct (fst (embed_documents _ _)) as [e|];
      destruct Hcase as [-> Hstore]; simpl; auto.
  - left.
    destruct (get_rag_response_spec (question q) (rag_session_id q) s)
      as (a & srcs & lat & s1 & Hrun & Hsvc & _).
    unfold ask_documents. unfold_M. rewrite Hrun.
    unfold datetime_utcnow, external. destruct (utcnow (world s1)) as [now w].
    simpl. by rewrite Hsvc.
  - left. destruct (clear_session_memory_spec sid s)
      as (s1 & Hrun & _ & Hstore & Hdocs & _).
    unfold clear_session. unfold_M. rewrite Hrun. simpl. auto.
  - left. destruct (check_ollama_connection_spec s) as (s1 & Hrun & Hsvc & _).
    unfold stats_endpoint, get_stats, get_document_count, get_session_count.
    unfold_M. simpl. rewrite Hrun. simpl. by rewrite Hsvc.
Qed.

Lemma split_documents_origin (size overlap : nat)
    (docs : list Document) (c : Document) :
  c ∈ split_documents size overlap docs ->
  exists d,
    d ∈ docs /\ metadata c = metadata d
    /\ page_content c ∈ split_text size overlap (page_content d).
Proof.
  unfold split_documents. rewrite list_elem_of_In, in_flat_map.
  intros (d & Hd & Hc). apply in_map_iff in Hc as (t & <- & Ht).
  exists d. split; [by apply list_elem_of_In|].
  split; [reflexivity|]. by apply list_elem_of_In.
Qed.

Lemma cut_from_metadata (c d : Document) :
  cut_from c d -> metadata c = metadata d.
Proof. intros [->|[H _]]; [reflexivity|exact H]. Qed.

Lemma provenance_handle (r : request) (s : Sys) :
  provenance s -> provenance (handle r s).
Proof.
  intros [Hname Hsrc].
  destruct (handle_documents r s)
    as [[Hdocs Hstore]|(content & fname & dt & now & Hdocs & Hstore)].
  - unfold provenance. by rewrite Hdocs, Hstore.
  - cbv zeta in Hdocs, Hstore. set (doc := new_document _ _ _ _) in *.
    assert (Hdoc : is_Some (metadata doc !! "filename")).
    { subst doc. simpl. rewrite lookup_insert_eq. eauto. }
    unfold provenance. rewrite Hdocs. split.
    + intros d [Hd|Hd%list_elem_of_singleton]%elem_of_app; [eauto|by subst].
    + intros index c Hindex Hc.
      destruct Hstore as [Hstore|Hstore]; rewrite Hstore in Hindex.
      * destruct (Hsrc _ _ Hindex Hc) as (d & Hd & Hcut).
        exists d. split; [apply elem_of_app; by left|assumption].
      * injection Hindex as <-. unfold next_index, to_index in Hc.
        destruct (vector_store (svc s)) as [old|] eqn:Hold.
        -- apply elem_of_app in Hc as [Hc|Hc%list_elem_of_singleton].
           ++ destruct (Hsrc _ _ eq_refl Hc) as (d & Hd & Hcut).
              exists d. split; [apply elem_of_app; by left|assumption].
           ++ exists doc. split; [|left; by subst].
              apply elem_of_app. right. by apply list_elem_of_singleton.
        -- apply split_documents_origin in Hc as (d & Hd & Hmeta & Htext).
           exists d. split; [exact Hd|]. right. by split.
Qed.

Lemma provenance_reachable (s : Sys) : reachable s -> provenance s.
Proof.
  intros (env & w & rs & ->).
  induction rs as [|r rs IH] using rev_ind.
  - split; simpl.
    + intros d Hd. by apply not_elem_of_nil in Hd.
    + intros index c Hindex. discriminate.
  - rewrite run_snoc. by apply provenance_handle.
Qed.

(** C3, on the code: in a running service [get_rag_response] reports at
    most 3 sources; each is ["[" filename "] " excerpt], where the excerpt
    is cut from an indexed text and has at most 203 characters, and the
    filename is that of the originating document: the ingested document
    which that indexed text is, or from whose content it was chunked.  The
    source as a whole has at most 206 characters more than the filename. *)
Theorem rag_sources_bounded `{!BackendLaws B} (question : string)
    (session_id : option string) (s : Sys) :
  reachable s ->
  exists answer srcs latency s',
    get_rag_response question session_id s
      = (inr (answer, srcs, latency), s')
    /\ (length srcs <= 3)%nat
    /\ Forall (fun src =>
         exists d fname index c,
           d ∈ documents (svc s)
           /\ metadata d !! "filename" = Some fname
           /\ vector_store (svc s) = Some index /\ c ∈ index
           /\ cut_from c d
           /\ src = "[" +:+ fname +:+ "] " +:+ source_text c
           /\ (Py.len (source_text c) <= 203)%nat
           /\ (Py.len src <= Py.len fname + 206)%nat) srcs.
Proof.
  intros [Hname Hsrc]%provenance_reachable.
  destruct (get_rag_response_spec question session_id s)
    as (answer & srcs & latency & s' & Hrun & _ & _ & _ & Hsrcs).
  exists answer, srcs, latency, s'. split; [exact Hrun|].
  destruct Hsrcs as [->|(index & ds & w & w' & Hindex & Hsearch & ->)].
  - split; [simpl; lia|constructor].
  - split.
    + rewrite length_map. eapply search_length, Hsearch.
    + apply Forall_map, Forall_forall. intros c Hc.
      pose proof (search_stored _ _ _ _ _ _ Hsearch c Hc) as Hin.
      destruct (Hsrc _ _ Hindex Hin) as (d & Hd & Hcut).
      pose proof (cut_from_metadata c d Hcut) as Hmeta.
      destruct (Hname d Hd) as [fname Hfname].
      assert (Hsf : source_filename c = fname).
      { unfold source_filename. by rewrite Hmeta, Hfname. }
      exists d, fname, index, c.
      pose proof (len_source_text c).
      repeat split; try assumption.
      * unfold format_source. by rewrite Hsf.
      * rewrite len_format_source, Hsf. lia.
Qed.

(** *** Further properties of the routes *)

(** The probe sends the prompt ["Hello"] once and touches nothing else. *)
Lemma check_ollama_connection_frame (s : Sys) :
  exists s', check_ollama_connection s = (inr (llm_up (world s)), s')
    /\ svc s' = svc s /\ heap s' = heap s /\ next_loc s' = next_loc s
    /\ world s' = snd (llm_call "Hello" (world s))
    /\ trace s' = trace s ++ [CallLLM "Hello"].
Proof.
  unfold check_ollama_connection, llm_invoke, llm_up. unfold_M.
  destruct (llm_call "Hello" (world s)) as [[e|r] w]; simpl; eauto 10.
Qed.

(** X1: startup never aborts, whether the inference server answers or not:
    it sends one probe and leaves the service as it was. *)
Theorem lifespan_startup_never_aborts (s : Sys) :
  exists s',
    lifespan_startup s = (inr tt, s')
    /\ svc s' = svc s /\ heap s' = heap s
    /\ trace s' = trace s ++ [CallLLM "Hello"].
Proof.
  destruct (check_ollama_connection_frame s)
    as (s' & Hrun & Hsvc & Hheap & _ & _ & Htrace).
  exists s'. unfold lifespan_startup. unfold_M. rewrite Hrun.
  destruct (llm_up (world s)); auto.
Qed.

(** X2: [GET /stats] always answers 200 with the configured names, the
    number of stored documents, the number of sessions and the outcome of a
    probe it sends on every call; the service is left as it was. *)
Theorem stats_route (s : Sys) :
  exists s',
    serve stats_endpoint s =
      (mkResponse 200
         (inl (mkStats (model_name (svc s)) (base_url (svc s))
                 (length (documents (svc s))) (size (sessions (svc s)))
                 (llm_up (world s)))), s')
    /\ svc s' = svc s /\ heap s' = heap s
    /\ trace s' = trace s ++ [CallLLM "Hello"].
Proof.
  destruct (check_ollama_connection_frame s)
    as (s' & Hrun & Hsvc & Hheap & _ & _ & Htrace).
  exists s'. unfold serve, stats_endpoint, get_stats, get_document_count,
    get_session_count. unfold_M. simpl. rewrite Hrun. auto.
Qed.

(** X3: [DELETE /session/{id}] always answers 200 with the same message,
    also for an identifier that has no session.  The entry of the identifier
    is gone, the other sessions, the memories and the documents are kept,
    and the session count drops by one exactly when there was an entry. *)
Theorem clear_session_route (sid : string) (s : Sys) :
  exists s',
    serve (clear_session sid) s =
      (mkResponse 200
         (inl ("Histórico da sessão " +:+ sid +:+ " limpo com sucesso")), s')
    /\ sessions (svc s') !! sid = None
    /\ (forall other, other <> sid ->
          sessions (svc s') !! other = sessions (svc s) !! other)
    /\ size (sessions (svc s')) =
         (if sessions (svc s) !! sid is Some _
          then size (sessions (svc s)) - 1
          else size (sessions (svc s)))%nat
    /\ documents (svc s') = documents (svc s)
    /\ vector_store (svc s') = vector_store (svc s)
    /\ heap s' = heap s.
Proof.
  destruct (clear_session_memory_spec sid s)
    as (s' & Hrun & Hsess & Hstore & Hdocs & Hheap & _).
  exists s'. split.
  { unfold serve, clear_session. unfold_M. by rewrite Hrun. }
  rewrite Hsess. split; [apply lookup_delete_eq|].
  split; [intros other Hne; by apply lookup_delete_ne|].
  split; [|auto].
  rewrite map_size_delete.
  destruct (sessions (svc s) !! sid); simpl; lia.
Qed.

Lemma receive_reachable (r : request) (s : Sys) :
  reachable s -> reachable (receive r s).
Proof.
  intros (env & w & rs & ->).
  assert (Hstep : reachable (handle r (run rs (boot env w)))).
  { exists env, w, (rs ++ [r]). by rewrite run_snoc. }
  assert (Hsame : reachable (run rs (boot env w))) by (eexists _, _, _; eauto).
  destruct r as [c| |file dt|q|sid|]; simpl; try exact Hstep.
  - unfold post_chat, validated. by destruct (ChatRequest_valid c).
  - unfold post_ask, validated. by destruct (RAGQueryRequest_valid q).
Qed.

(** X4: [POST /chat] answers 422 without running the handler, and leaves
    the process as it is, when the message is empty or has more than 2000
    characters.  For every other body it answers 200, also when the
    completion call fails: the body then carries the apology.  The session
    identifier of the request is echoed as it came. *)
Theorem chat_route (c : ChatRequest) (s : Sys) :
  let t0 := fst (time_time (world s)) in
  let w1 := snd (time_time (world s)) in
  let outcome :=
    llm_call (chat_prompt (message c) (chat_session_id c) s) w1 in
  let t1 := fst (time_time (snd outcome)) in
  if (1 <=? Py.len (message c))%nat && (Py.len (message c) <=? 2000)%nat
  then
    exists now s',
      post_chat c s =
        (Handled
           (mkResponse 200
              (inl (mkChatResponse
                      (match fst outcome with
                       | inl e => chat_apology +:+ str_exn e
                       | inr response => Py.strip response
                       end)
                      (elapsed_ms t1 t0) (chat_session_id c) now))), s')
  else
    post_chat c s = (Unprocessable, s)
    /\ reply_status (fst (post_chat c s)) = 422.
Proof.
  intros t0 w1 outcome t1. unfold post_chat, validated, ChatRequest_valid.
  destruct ((1 <=? Py.len (message c))%nat
            && (Py.len (message c) <=? 2000)%nat); [|by split].
  destruct (get_chat_response_spec (message c) (chat_session_id c) s)
    as (s1 & Hrun & _).
  unfold serve, chat. unfold_M. rewrite Hrun.
  unfold datetime_utcnow, external.
  destruct (utcnow (world s1)) as [now w]. simpl.
  eexists _, _. subst outcome t1 t0 w1. unfold chat_answer.
  destruct (fst (llm_call _ _)); reflexivity.
Qed.

(** X5: [POST /ask] answers 422 without running the handler, and leaves
    the process as it is, when the question is empty or has more than 2000
    characters.  For every other body it answers 200 with what
    [get_rag_response] returned and the session identifier echoed.  The
    identifier is not used for anything else: the answer is the one given
    without identifier, and no session or memory is created or changed. *)
Theorem ask_route (q : RAGQueryRequest) (s : Sys) :
  if (1 <=? Py.len (question q))%nat && (Py.len (question q) <=? 2000)%nat
  then
    exists answer srcs latency now s',
      post_ask q s =
        (Handled
           (mkResponse 200
              (inl (mkRAGQueryResponse answer srcs latency
                      (rag_session_id q) now))), s')
      /\ fst (get_rag_response (question q) None s)
         = inr (answer, srcs, latency)
      /\ svc s' = svc s /\ heap s' = heap s /\ next_loc s' = next_loc s
  else
    post_ask q s = (Unprocessable, s)
    /\ reply_status (fst (post_ask q s)) = 422.
Proof.
  unfold post_ask, validated, RAGQueryRequest_valid.
  destruct ((1 <=? Py.len (question q))%nat
            && (Py.len (question q) <=? 2000)%nat); [|by split].
  destruct (get_rag_response_spec (question q) (rag_session_id q) s)
    as (answer & srcs & latency & s1 & Hrun & Hsvc & Hheap & Hnext & _).
  unfold serve, ask_documents. unfold_M. rewrite Hrun.
  unfold datetime_utcnow, external.
  destruct (utcnow (world s1)) as [now w]. simpl.
  eexists _, _, _, _, _. split; [reflexivity|]. simpl.
  split; [|auto].
  change (get_rag_response (question q) None s)
    with (get_rag_response (question q) (rag_session_id q) s).
  by rewrite Hrun.
Qed.

(** X6: with an index in place, [get_rag_response] retrieves once with
    [k = 3] and completes at most once.  When the retrieval fails no
    completion is asked for; when either call fails with [e] the answer is
    the apology followed by [str(e)] and the sources are empty, the
    retrieved documents being dropped; otherwise the answer is the
    completion stripped and the sources are the retrieved documents,
    formatted, in their order. *)
Theorem rag_outcomes (question : string) (session_id : option string)
    (index : list Document) (s : Sys) :
  vector_store (svc s) = Some index ->
  let w1 := snd (time_time (world s)) in
  let found := similarity_search index question 3 w1 in
  exists answer srcs latency s',
    get_rag_response question session_id s
      = (inr (answer, srcs, latency), s')
    /\ svc s' = svc s
    /\ match fst found with
       | inl e =>
           answer = rag_apology +:+ str_exn e /\ srcs = []
           /\ trace s' = trace s ++ [CallTime; CallSearch question 3; CallTime]
       | inr ds =>
           match fst (llm_call (stuff_prompt ds question) (snd found)) with
           | inl e => answer = rag_apology +:+ str_exn e /\ srcs = []
           | inr response =>
               answer = Py.strip response /\ srcs = map format_source ds
           end
           /\ trace s' = trace s ++ [CallTime; CallSearch question 3;
                                     CallLLM (stuff_prompt ds question);
                                     CallTime]
       end.
Proof.
  intros Hindex w1 found. subst found w1.
  unfold get_rag_response, RetrievalQA_call, llm_invoke, time_now.
  unfold_M. destruct (time_time (world s)) as [t0 w1]. simpl.
  rewrite Hindex. simpl.
  destruct (similarity_search index question 3 w1) as [[e|ds] w2]; simpl.
  - destruct (time_time w2) as [t1 w3]. simpl.
    eexists _, _, _, _. split; [reflexivity|]. simpl.
    rewrite <- !app_assoc. auto.
  - destruct (llm_call (stuff_prompt ds question) w2) as [[e|response] w3];
      simpl; destruct (time_time w3) as [t1 w4]; simpl;
      (eexists _, _, _, _; split; [reflexivity|]); simpl;
      rewrite <- !app_assoc; auto.
Qed.

(** X7: of the six routes only the upload can fail, and only with status
    500: no route raises anything but an [HTTPException], so the global
    exception handler of the application is never reached by them, and no
    route answers 400. *)
Theorem only_upload_fails (r : request) (s : Sys) :
  route_failure r s = None
  \/ exists file document_type detail,
       r = PostUpload file document_type
       /\ route_failure r s = Some (HTTPException 500 detail).
Proof.
  destruct r as [c| |file dt|q|sid|]; unfold route_failure, raised.
  - left.
    destruct (get_chat_response_spec (message c) (chat_session_id c) s)
      as (s1 & Hrun & _).
    unfold chat. unfold_M. rewrite Hrun. unfold datetime_utcnow, external.
    by destruct (utcnow (world s1)).
  - left. destruct (check_ollama_connection_spec s) as (s1 & Hrun & _).
    unfold health_check. unfold_M. rewrite Hrun.
    unfold datetime_utcnow, external. by destruct (utcnow (world s1)).
  - unfold upload_document. unfold_M.
    destruct (negb (Py.endswith_any (filename file) [".txt"; ".md"]));
      simpl; [right; eauto|].
    destruct (decode_utf8 (file_bytes file)) as [e|text]; simpl;
      [right; eauto|].
    destruct (negb (Py.truthy (Py.strip text))); simpl; [right; eauto|].
    destruct (add_document_cases text (filename file) dt s)
      as (s1 & Hcase & _).
    destruct (fst (embed_documents _ _)) as [e|];
      destruct Hcase as [-> _]; simpl; [right; eauto|by left].
  - left.
    destruct (get_rag_response_spec (question q) (rag_session_id q) s)
      as (a & srcs & lat & s1 & Hrun & _).
    unfold ask_documents. unfold_M. rewrite Hrun.
    unfold datetime_utcnow, external. by destruct (utcnow (world s1)).
  - left. destruct (clear_session_memory_spec sid s) as (s1 & Hrun & _).
    unfold clear_session. unfold_M. by rewrite Hrun.
  - left. destruct (check_ollama_connection_spec s) as (s1 & Hrun & _).
    unfold stats_endpoint, get_stats, get_document_count, get_session_count.
    unfold_M. simpl. by rewrite Hrun.
Qed.

(** *** Further properties of the sessions *)

(** X8: a chat under a non-empty identifier that has no session adds one
    session, whether the completion call returns or fails; every other chat
    leaves the number of sessions as it is. *)
Theorem chat_session_count (message : string) (session_id : option string)
    (s : Sys) :
  size (sessions (svc (snd (get_chat_response message session_id s)))) =
    match known_memory session_id s with
    | Some _ => size (sessions (svc s))
    | None => if Py.truthy_opt session_id
              then S (size (sessions (svc s)))
              else size (sessions (svc s))
    end.
Proof.
  destruct (get_chat_response_spec message session_id s)
    as (s' & -> & _ & _ & Hsess & _).
  simpl. rewrite Hsess. unfold sessions_after, known_memory.
  destruct (Py.truthy_opt session_id); [|reflexivity].
  rewrite map_size_insert.
  by destruct (sessions (svc s) !! default "" session_id).
Qed.

(** X9: under a non-empty identifier, a chat whose completion call returns
    appends the message and the completion as it came (not stripped) to the
    history of the session; a chat whose call fails records nothing, not
    even the message.  The next chat under the identifier starts from that
    history. *)
Theorem chat_history_growth (message sid : string) (s : Sys) :
  Py.truthy sid = true ->
  let outcome :=
    fst (llm_call (chat_prompt message (Some sid) s)
           (snd (time_time (world s)))) in
  let s' := snd (get_chat_response message (Some sid) s) in
  session_history sid s'
    = Some (prior_history (Some sid) s ++ new_turns message outcome)
  /\ prior_history (Some sid) s'
     = prior_history (Some sid) s ++ new_turns message outcome.
Proof.
  intros Ht outcome s'.
  destruct (get_chat_response_spec message (Some sid) s)
    as (s1 & Hrun & _ & _ & Hsess & _ & _ & _ & _ & _ & Hbuf).
  assert (Hs' : s' = s1) by (unfold s'; by rewrite Hrun). rewrite Hs'.
  assert (Hm : sessions (svc s1) !! sid = Some (memory_of (Some sid) s)).
  { rewrite Hsess. unfold sessions_after. simpl. rewrite Ht.
    apply lookup_insert_eq. }
  assert (Hb : buffer s1 (memory_of (Some sid) s)
               = prior_history (Some sid) s ++ new_turns message outcome).
  { rewrite Hbuf, decide_True by reflexivity. reflexivity. }
  split.
  - unfold session_history. rewrite Hm. simpl. by rewrite Hb.
  - unfold prior_history at 1, known_memory. simpl. rewrite Ht, Hm. simpl.
    exact Hb.
Qed.

Lemma memory_step_injective (r : request) (s s' : Sys) :
  memory_step s s' r -> wf s -> injective_sessions s -> injective_sessions s'.
Proof.
  intros Hstep Hwf Hinj sid1 sid2 l H1 H2.
  destruct Hstep as [c turns Hsess _ _|sid' Hsess _ _|r _ _ Hsess _ _];
    rewrite Hsess in H1, H2.
  - assert (Hnew : forall sid, sessions (svc s) !! sid = Some l ->
                     l = memory_of (chat_session_id c) s ->
                     chat_session_id c = Some sid).
    { intros sid Hold ->.
      destruct (memory_of_cases (chat_session_id c) s)
        as [(x & E & _ & Hin & _)|(_ & Hfresh & _)].
      - rewrite E. f_equal. eapply Hinj; eassumption.
      - apply Hwf in Hold. lia. }
    apply sessions_after_lookup in H1 as [H1|(E1 & _ & ->)];
      apply sessions_after_lookup in H2 as [H2|(E2 & _ & E)].
    + eapply Hinj; eassumption.
    + specialize (Hnew _ H1 E). congruence.
    + specialize (Hnew _ H2 eq_refl). congruence.
    + congruence.
  - apply lookup_delete_Some in H1 as [_ H1].
    apply lookup_delete_Some in H2 as [_ H2]. eapply Hinj; eassumption.
  - eapply Hinj; eassumption.
Qed.

Lemma injective_reachable (s : Sys) : reachable s -> injective_sessions s.
Proof.
  intros (env & w & rs & ->).
  induction rs as [|r rs IH] using rev_ind.
  - intros sid1 sid2 l H. simpl in H. by rewrite lookup_empty in H.
  - rewrite run_snoc. eapply memory_step_injective.
    + apply handle_memory_step.
    + apply wf_run, wf_boot.
    + exact IH.
Qed.

(** X10: in a running service the sessions are isolated: a chat, whatever
    its identifier and its outcome, leaves the history of every other
    session as it is. *)
Theorem chat_leaves_other_sessions (message : string)
    (session_id : option string) (other : string) (s : Sys) :
  reachable s ->
  session_id <> Some other ->
  session_history other (snd (get_chat_response message session_id s))
  = session_history other s.
Proof.
  intros Hreach Hne.
  pose proof (wf_reachable s Hreach) as Hwf.
  pose proof (injective_reachable s Hreach) as Hinj.
  destruct (get_chat_response_spec message session_id s)
    as (s' & -> & _ & _ & Hsess & _ & _ & _ & _ & _ & Hbuf).
  simpl. unfold session_history.
  assert (Hsame : sessions (svc s') !! other = sessions (svc s) !! other).
  { rewrite Hsess. unfold sessions_after.
    destruct session_id as [sid|]; simpl; [|reflexivity].
    destruct (Py.truthy sid); [|reflexivity].
    apply lookup_insert_ne. congruence. }
  rewrite Hsame. destruct (sessions (svc s) !! other) as [l|] eqn:Hl;
    [simpl|reflexivity].
  f_equal. rewrite Hbuf.
  destruct (decide (l = memory_of session_id s)) as [->|_]; [|reflexivity].
  exfalso.
  destruct (memory_of_cases session_id s)
    as [(x & E & _ & Hin & _)|(_ & Hfresh & _)].
  - apply Hne. rewrite E. f_equal. eapply Hinj; eassumption.
  - apply Hwf in Hl. lia.
Qed.

(** X11: a chat asks for exactly one completion, between two readings of
    the clock, also when the call fails: a failed call is not repeated. *)
Theorem chat_single_completion (message : string)
    (session_id : option string) (s : Sys) :
  trace (snd (get_chat_response message session_id s))
  = trace s ++ [CallTime; CallLLM (chat_prompt message session_id s);
                CallTime].
Proof.
  destruct (get_chat_response_spec message session_id s)
    as (s' & -> & _ & Htrace & _).
  exact Htrace.
Qed.

(** *** Further properties of the ingestion *)

Lemma handle_grows (r : request) (s : Sys) :
  documents (svc s) `prefix_of` documents (svc (handle r s))
  /\ forall index,
       vector_store (svc s) = Some index ->
       exists index',
         vector_store (svc (handle r s)) = Some index'
         /\ index `prefix_of` index'.
Proof.
  destruct (handle_documents r s)
    as [[Hdocs Hstore]|(content & fname & dt & now & Hdocs & Hstore)].
  - rewrite Hdocs, Hstore. split; [reflexivity|]. eauto.
  - cbv zeta in Hdocs, Hstore. rewrite Hdocs.
    split; [by apply prefix_app_r|].
    intros index Hindex. destruct Hstore as [->| ->].
    + eauto.
    + unfold next_index, to_index, merge_from. rewrite Hindex.
      eexists. split; [reflexivity|]. by apply prefix_app_r.
Qed.

(** X12: there is no way back in the document store: over any requests
    the documents held before stay in place, in order, at the head of the
    list, so the document count never drops; and an index, once built, is
    never dropped and keeps its entries, in order, at its head. *)
Theorem documents_only_grow (rs : list request) (s : Sys) :
  documents (svc s) `prefix_of` documents (svc (run rs s))
  /\ (length (documents (svc s)) <= length (documents (svc (run rs s))))%nat
  /\ forall index,
       vector_store (svc s) = Some index ->
       exists index',
         vector_store (svc (run rs s)) = Some index'
         /\ index `prefix_of` index'.
Proof.
  assert (H : documents (svc s) `prefix_of` documents (svc (run rs s))
              /\ forall index,
                   vector_store (svc s) = Some index ->
                   exists index',
                     vector_store (svc (run rs s)) = Some index'
                     /\ index `prefix_of` index').
  { revert s. induction rs as [|r rs IH]; intros s.
    - split; [reflexivity|]. eauto.
    - rewrite run_cons. destruct (handle_grows r s) as [Hd Hi].
      destruct (IH (handle r s)) as [Hd' Hi']. split; [by etrans|].
      intros index Hindex.
      destruct (Hi _ Hindex) as (index1 & H1 & Hp1).
      destruct (Hi' _ H1) as (index2 & H2 & Hp2).
      exists index2. split; [exact H2|by etrans]. }
  destruct H as [Hd Hi]. split; [exact Hd|]. split; [|exact Hi].
  by apply prefix_length.
Qed.

Lemma add_document_failed (content fname document_type : string)
    (e : exn) (s s' : Sys) :
  add_document content fname document_type s = (inl e, s') ->
  let doc := new_document content fname document_type
               (fst (utcnow (world s))) in
  documents (svc s') = documents (svc s) ++ [doc]
  /\ vector_store (svc s') = vector_store (svc s).
Proof.
  intros Hrun doc.
  destruct (add_document_cases content fname document_type s)
    as (s1 & Hcase & Hdocs & _).
  destruct (fst (embed_documents _ _)) as [e'|].
  - destruct Hcase as [Hcase Hstore]. rewrite Hrun in Hcase.
    injection Hcase as _ <-. auto.
  - destruct Hcase as [Hcase _]. rewrite Hrun in Hcase. discriminate.
Qed.

(** X13: while no index exists, a document whose embedding failed is not
    lost to retrieval: it stays in the document list, and the next
    successful [add_document] builds the index from the chunks of all the
    documents held, the failed one included. *)
Theorem failed_document_indexed_later (c1 f1 t1 c2 f2 t2 : string)
    (e : exn) (s s1 s2 : Sys) :
  vector_store (svc s) = None ->
  add_document c1 f1 t1 s = (inl e, s1) ->
  add_document c2 f2 t2 s1 = (inr tt, s2) ->
  exists d1 d2,
    page_content d1 = c1 /\ page_content d2 = c2
    /\ documents (svc s2) = documents (svc s) ++ [d1; d2]
    /\ vector_store (svc s2)
       = Some (split_documents 1000 200 (documents (svc s) ++ [d1; d2])).
Proof.
  intros Hnone H1 H2.
  apply add_document_failed in H1 as [Hdocs1 Hstore1].
  apply add_document_ok in H2 as (Hdocs2 & Hstore2 & _).
  eexists _, _. split; [|split; [|split]]; cycle 2.
  - rewrite Hdocs2, Hdocs1, <- app_assoc. reflexivity.
  - rewrite Hstore2. unfold next_index, to_index.
    rewrite Hstore1, Hnone, Hdocs1, <- app_assoc. reflexivity.
  - reflexivity.
  - reflexivity.
Qed.

(** X14: [add_document] reads the date once and makes one embedding call.
    With an index in place the call carries one text, the whole content of
    the new document; without one it carries the chunks of every document
    held, those embedded in vain before included. *)
Theorem add_document_embeds (content fname document_type : string)
    (s : Sys) :
  let doc := new_document content fname document_type
               (fst (utcnow (world s))) in
  trace (snd (add_document content fname document_type s))
  = trace s ++
    [CallUtcnow;
     CallEmbed
       (match vector_store (svc s) with
        | Some _ => [content]
        | None => map page_content
                    (split_documents 1000 200 (documents (svc s) ++ [doc]))
        end)].
Proof.
  unfold add_document, FAISS_from_documents, datetime_utcnow. unfold_M.
  simpl. destruct (utcnow (world s)) as [now w1]; simpl.
  destruct (vector_store (svc s)) as [index|]; simpl;
    match goal with |- context [embed_documents ?t ?w] =>
      destruct (embed_documents t w) as [[e|] w2] end;
    simpl; by rewrite <- app_assoc.
Qed.

(** *** Texts *)

Lemma blank_lstrip (text : string) : blank (Py.lstrip text) = blank text.
Proof.
  unfold blank. induction text as [|c text IH]; simpl; [reflexivity|].
  destruct (Py.isspace c) eqn:Hc; simpl; [exact IH|by rewrite Hc].
Qed.

Lemma rstrip_empty (text : string) :
  String.eqb (Py.rstrip text) "" = blank text.
Proof.
  unfold blank. induction text as [|c text IH]; simpl; [reflexivity|].
  destruct (Py.rstrip text) as [|a r]; simpl in *.
  - rewrite <- IH. destruct (Py.isspace c); reflexivity.
  - rewrite <- IH. by rewrite andb_false_r.
Qed.

(** [not text.strip()] holds exactly for the texts of whitespace only. *)
Lemma strip_truthy (text : string) :
  Py.truthy (Py.strip text) = negb (blank text).
Proof.
  unfold Py.truthy, Py.strip. by rewrite rstrip_empty, blank_lstrip.
Qed.

Lemma lstrip_split (text : string) :
  exists pre, text = pre +:+ Py.lstrip text /\ blank pre = true.
Proof.
  induction text as [|c text (pre & IH & Hpre)]; simpl.
  - by exists "".
  - destruct (Py.isspace c) eqn:Hc.
    + exists (String c pre).
      split; [change (String c text = String c (pre +:+ Py.lstrip text));
              by rewrite <- IH|].
      unfold blank in *. simpl. by rewrite Hc.
    + by exists "".
Qed.

Lemma rstrip_split (text : string) :
  exists post, text = Py.rstrip text +:+ post /\ blank post = true.
Proof.
  induction text as [|c text (post & IH & Hpost)]; simpl.
  - by exists "".
  - destruct (Py.rstrip text) as [|a r] eqn:Hr.
    + simpl in IH. destruct (Py.isspace c) eqn:Hc.
      * exists (String c text). split; [reflexivity|].
        unfold blank in *. simpl. rewrite Hc. simpl. by rewrite IH.
      * exists text. split; [reflexivity|]. by rewrite IH.
    + exists post. split; [|exact Hpost].
      change (String c text = String c (String a r +:+ post)).
      by rewrite <- IH.
Qed.

Lemma lstrip_first (text : string) :
  Py.lstrip text = "" \/ solid (first_char (Py.lstrip text)).
Proof.
  induction text as [|c text IH]; simpl; [by left|].
  destruct (Py.isspace c) eqn:Hc; [exact IH|].
  right. exists c. auto.
Qed.

Lemma rstrip_first (text : string) :
  Py.rstrip text = "" \/ first_char (Py.rstrip text) = first_char text.
Proof.
  destruct text as [|c text]; simpl; [by left|].
  destruct (Py.rstrip text); [destruct (Py.isspace c)|]; auto.
Qed.

Lemma rstrip_last (text : string) :
  Py.rstrip text = "" \/ solid (last_char (Py.rstrip text)).
Proof.
  induction text as [|c text IH]; simpl; [by left|].
  destruct (Py.rstrip text) as [|a r] eqn:Hr.
  - destruct (Py.isspace c) eqn:Hc; [by left|].
    right. exists c. auto.
  - right. destruct IH as [IH|IH]; [discriminate|]. exact IH.
Qed.

(** X15: the answer of a chat whose completion call returns is the
    completion without the whitespace around it: the completion is some
    whitespace, the answer, some whitespace; and the answer, unless empty,
    neither starts nor ends with a whitespace character. *)
Theorem chat_answer_stripped (message : string) (session_id : option string)
    (response : string) (s : Sys) :
  fst (llm_call (chat_prompt message session_id s)
         (snd (time_time (world s)))) = inr response ->
  exists answer latency,
    fst (get_chat_response message session_id s) = inr (answer, latency)
    /\ (exists pre post,
          response = pre +:+ answer +:+ post
          /\ blank pre = true /\ blank post = true)
    /\ (answer = ""
        \/ solid (first_char answer) /\ solid (last_char answer)).
Proof.
  intros Hllm.
  destruct (get_chat_response_spec message session_id s) as (s' & Hrun & _).
  rewrite Hllm in Hrun. rewrite Hrun. simpl.
  eexists _, _. split; [reflexivity|]. unfold Py.strip. split.
  - destruct (lstrip_split response) as (pre & Hpre & Hb1).
    destruct (rstrip_split (Py.lstrip response)) as (post & Hpost & Hb2).
    exists pre, post. repeat split; try assumption.
    by rewrite <- Hpost.
  - destruct (rstrip_last (Py.lstrip response)) as [He|Hlast]; [by left|].
    right. split; [|exact Hlast].
    destruct (rstrip_first (Py.lstrip response)) as [He|Hfirst].
    + destruct Hlast as (a & Ha & _). rewrite He in Ha. discriminate.
    + rewrite Hfirst.
      destruct (lstrip_first response) as [He|Hf]; [|exact Hf].
      rewrite He in Hlast. destruct Hlast as (a & Ha & _). discriminate.
Qed.

Lemma substring_all (text : string) :
  substring 0 (String.length text) text = text.
Proof. induction text as [|c text IH]; simpl; [reflexivity|by rewrite IH]. Qed.

Lemma substring_append (pre text : string) (n : nat) :
  substring (String.length pre) n (pre +:+ text) = substring 0 n text.
Proof. induction pre as [|c pre IH]; simpl; [reflexivity|exact IH]. Qed.

Lemma substring_split (n : nat) (text : string) :
  (n <= String.length text)%nat ->
  text = substring 0 n text +:+ substring n (String.length text - n) text
  /\ String.length (substring 0 n text) = n.
Proof.
  revert text. induction n as [|n IH]; intros text Hn.
  - rewrite Nat.sub_0_r, substring_all. by destruct text.
  - destruct text as [|c text]; simpl in *; [lia|].
    destruct (IH text) as [Hsplit Hlen]; [lia|].
    split; [|by rewrite Hlen].
    change (String c text
            = String c (substring 0 n text
                        +:+ substring n (String.length text - n) text)).
    by rewrite <- Hsplit.
Qed.

Lemma endswith_iff (text suffix : string) :
  Py.endswith text suffix = true <-> exists stem, text = stem +:+ suffix.
Proof.
  unfold Py.endswith, Py.len. rewrite andb_true_iff, Nat.leb_le, String.eqb_eq.
  split.
  - intros [Hle Hsub].
    destruct (substring_split (String.length text - String.length suffix) text)
      as [Hsplit _]; [lia|].
    replace (String.length text
             - (String.length text - String.length suffix))%nat
      with (String.length suffix) in Hsplit by lia.
    rewrite Hsub in Hsplit. eauto.
  - intros [stem ->]. pose proof (len_append stem suffix) as Hlen.
    unfold Py.len in Hlen. rewrite Hlen. split; [lia|].
    replace (String.length stem + String.length suffix
             - String.length suffix)%nat
      with (String.length stem) by lia.
    by rewrite substring_append, substring_all.
Qed.

(** X16: the extension check of the upload passes exactly for the names
    that end in [.txt] or in [.md], letter for letter: the name is some
    stem, possibly empty, followed by one of the two. *)
Theorem upload_extension_check (name : string) :
  Py.endswith_any name [".txt"; ".md"] = true
  <-> exists stem, name = stem +:+ ".txt" \/ name = stem +:+ ".md".
Proof.
  unfold Py.endswith_any. simpl. rewrite orb_false_r, orb_true_iff.
  rewrite !endswith_iff. split.
  - intros [[stem H]|[stem H]]; eauto.
  - intros [stem [H|H]]; eauto.
Qed.

(** X17: a retrieved text of at most 200 characters is reported whole and
    without ellipsis, one of exactly 200 included; of a longer one exactly
    the first 200 characters are reported, followed by three dots. *)
Theorem source_text_cut (doc : Document) :
  if (Py.len (page_content doc) <=? 200)%nat
  then source_text doc = page_content doc
  else exists head rest,
         page_content doc = head +:+ rest
         /\ Py.len head = 200%nat /\ rest <> ""
         /\ source_text doc = head +:+ "...".
Proof.
  unfold source_text, Py.slice_to, Py.len.
  destruct (String.length (page_content doc) <=? 200)%nat eqn:Hle.
  - apply Nat.leb_le in Hle.
    destruct (200 <? String.length (page_content doc))%nat eqn:Hlt;
      [apply Nat.ltb_lt in Hlt; lia|reflexivity].
  - apply Nat.leb_gt in Hle.
    destruct (200 <? String.length (page_content doc))%nat eqn:Hlt;
      [|apply Nat.ltb_ge in Hlt; lia].
    destruct (substring_split 200 (page_content doc)) as [Hsplit Hlen]; [lia|].
    eexists _, _. split; [exact Hsplit|]. split; [exact Hlen|].
    split; [|reflexivity].
    intros Hrest. rewrite Hrest in Hsplit.
    apply (f_equal String.length) in Hsplit.
    pose proof (len_append (substring 0 200 (page_content doc)) "") as Happ.
    unfold Py.len in Happ. rewrite Happ, Hlen in Hsplit. simpl in Hsplit. lia.
Qed.

(** *** Further properties of the upload *)

(** X18: an upload with an accepted name whose content decodes to
    whitespace only, the empty file included, is answered with status 500
    (the 400 raised for it is caught by the handler itself); nothing is
    stored and no call leaves the process. *)
Theorem upload_blank_is_500 (file : UploadFile) (document_type text : string)
    (s : Sys) :
  Py.endswith_any (filename file) [".txt"; ".md"] = true ->
  decode_utf8 (file_bytes file) = inr text ->
  blank text = true ->
  serve (upload_document file document_type) s =
    (mkResponse 500
       (inr ("Erro ao processar documento: "
             +:+ str_http 400 "O arquivo está vazio")), s).
Proof.
  intros Hext Hdec Hblank. unfold serve, upload_document. unfold_M.
  rewrite Hext. simpl. rewrite Hdec. simpl.
  rewrite strip_truthy, Hblank. reflexivity.
Qed.

(** X19: an upload with an accepted name whose bytes do not decode is
    answered with status 500 and the text of the decoding error; nothing is
    stored and no call leaves the process. *)
Theorem upload_undecodable_is_500 (file : UploadFile)
    (document_type : string) (e : exn) (s : Sys) :
  Py.endswith_any (filename file) [".txt"; ".md"] = true ->
  decode_utf8 (file_bytes file) = inl e ->
  serve (upload_document file document_type) s =
    (mkResponse 500 (inr ("Erro ao processar documento: " +:+ str_exn e)), s).
Proof.
  intros Hext Hdec. unfold serve, upload_document. unfold_M.
  rewrite Hext. simpl. rewrite Hdec. reflexivity.
Qed.

(** X20: an upload with an accepted name and a content that is not blank,
    whose embedding succeeds, is answered 200 with the name, the number of
    characters of the decoded content, the type as given and the new
    document count, one more than before; the document is stored and
    indexed. *)
Theorem upload_success (file : UploadFile) (document_type text : string)
    (s : Sys) :
  Py.endswith_any (filename file) [".txt"; ".md"] = true ->
  decode_utf8 (file_bytes file) = inr text ->
  blank text = false ->
  let doc := new_document text (filename file) document_type
               (fst (utcnow (world s))) in
  fst (embed_documents (map page_content (to_index s doc))
         (snd (utcnow (world s)))) = None ->
  exists s',
    serve (upload_document file document_type) s =
      (mkResponse 200
         (inl (mkUploadResult
                 ("Documento " +:+ filename file +:+ " carregado com sucesso")
                 (filename file) (Py.len text) document_type
                 (S (length (documents (svc s)))))), s')
    /\ documents (svc s') = documents (svc s) ++ [doc]
    /\ vector_store (svc s') = Some (next_index s doc).
Proof.
  intros Hext Hdec Hblank doc Hembed.
  destruct (add_document_cases text (filename file) document_type s)
    as (s' & Hcase & Hdocs & _).
  fold doc in Hcase, Hdocs. rewrite Hembed in Hcase.
  destruct Hcase as [Hrun Hstore].
  exists s'. split; [|auto].
  unfold serve, upload_document. unfold_M.
  rewrite Hext. simpl. rewrite Hdec. simpl.
  rewrite strip_truthy, Hblank. simpl. rewrite Hrun. simpl.
  unfold get_document_count, gets. rewrite Hdocs, length_app. simpl.
  by rewrite Nat.add_1_r.
Qed.

(** X21: when the embedding fails during an upload the answer is status
    500 with the text of the error, and yet the document has been added to
    the list: the document count reported from then on is one higher, while
    the index is what it was. *)
Theorem upload_embedding_failure (file : UploadFile)
    (document_type text : string) (e : exn) (s : Sys) :
  Py.endswith_any (filename file) [".txt"; ".md"] = true ->
  decode_utf8 (file_bytes file) = inr text ->
  blank text = false ->
  let doc := new_document text (filename file) document_type
               (fst (utcnow (world s))) in
  fst (embed_documents (map page_content (to_index s doc))
         (snd (utcnow (world s)))) = Some e ->
  exists s',
    serve (upload_document file document_type) s =
      (mkResponse 500
         (inr ("Erro ao processar documento: " +:+ str_exn e)), s')
    /\ documents (svc s') = documents (svc s) ++ [doc]
    /\ get_document_count s' = (inr (S (length (documents (svc s)))), s')
    /\ vector_store (svc s') = vector_store (svc s).
Proof.
  intros Hext Hdec Hblank doc Hembed.
  destruct (add_document_cases text (filename file) document_type s)
    as (s' & Hcase & Hdocs & _).
  fold doc in Hcase, Hdocs. rewrite Hembed in Hcase.
  destruct Hcase as [Hrun Hstore].
  exists s'. split; [|split; [exact Hdocs|split; [|exact Hstore]]].
  - unfold serve, upload_document. unfold_M.
    rewrite Hext. simpl. rewrite Hdec. simpl.
    rewrite strip_truthy, Hblank. simpl. by rewrite Hrun.
  - unfold get_document_count, gets. rewrite Hdocs, length_app. simpl.
    by rewrite Nat.add_1_r.
Qed.

(** X22: the document count and the answers can disagree: when the first
    upload fails at the embedding, the count is 1 from then on, and a
    question is still answered with the message that no document has been
    loaded. *)
Theorem counted_but_not_searchable (content fname document_type : string)
    (question : string) (session_id : option string) (e : exn)
    (s s' : Sys) :
  vector_store (svc s) = None ->
  add_document content fname document_type s = (inl e, s') ->
  get_document_count s' = (inr (S (length (documents (svc s)))), s')
  /\ exists latency s'',
       get_rag_response question session_id s'
       = (inr (no_documents_message, [], latency), s'').
Proof.
  intros Hnone Hrun.
  apply add_document_failed in Hrun as [Hdocs Hstore].
  split.
  - unfold get_document_count, gets. rewrite Hdocs, length_app. simpl.
    by rewrite Nat.add_1_r.
  - rewrite Hnone in Hstore.
    unfold get_rag_response, time_now. unfold_M.
    destruct (time_time (world s')) as [t0 w1]; simpl. rewrite Hstore. simpl.
    destruct (time_time w1) as [t1 w2]; simpl. eauto.
Qed.

(** X23: in a running service an index exists only if a document is held:
    the message that no document has been loaded is the answer as long as
    nothing has been uploaded. *)
Theorem index_needs_document (s : Sys) :
  reachable s ->
  is_Some (vector_store (svc s)) ->
  (0 < length (documents (svc s)))%nat.
Proof.
  intros (env & w & rs & ->).
  induction rs as [|r rs IH] using rev_ind.
  - simpl. intros [index H]. discriminate.
  - rewrite run_snoc.
    destruct (handle_documents r (run rs (boot env w)))
      as [[Hdocs Hstore]|(content & fname & dt & now & Hdocs & _)].
    + rewrite Hdocs, Hstore. exact IH.
    + cbv zeta in Hdocs. rewrite Hdocs, length_app. simpl. lia.
Qed.

End Properties.

(** ** Concrete runs

  The statements above, applied on the scripted backend. *)
Module Runs.
Import Demo.

Lemma pieces_bounded (fuel size : nat) (text c : string) :
  c ∈ pieces fuel size text -> (Py.len c <= size)%nat.
Proof.
  revert text. induction fuel as [|fuel IH]; intros text; simpl.
  - intros H. by apply not_elem_of_nil in H.
  - destruct text as [|a text]; [intros H; by apply not_elem_of_nil in H|].
    intros [->|H]%elem_of_cons; [apply len_slice_to|].
    eapply IH, H.
Qed.

#[export] Instance laws : BackendLaws backend.
Proof.
  split.
  - intros idx q k w ds w' [= <- _]. rewrite length_take. lia.
  - intros idx q k w ds w' [= <- _] d Hd.
    rewrite <- (take_drop k idx). apply elem_of_app. by left.
  - intros size overlap text c. simpl. unfold split.
    destruct size; [intros H; by apply not_elem_of_nil in H|].
    apply pieces_bounded.
Qed.

Lemma one_document_reachable : reachable one_document.
Proof. eexists _, _, _. reflexivity. Defined.

(** The scenario of the specification: two chats under ["s1"] leave a
    history of four turns. *)
Example two_chats_four_turns :
  session_history "s1"
    (run [PostChat (mkChatRequest "Hi" (Some "s1"));
          PostChat (mkChatRequest "Hi" (Some "s1"))] (start [] []))
  = Some [(Human, "Hi"); (AI, " ok "); (Human, "Hi"); (AI, " ok ")].
Proof. vm_compute. reflexivity. Qed.

(** C1: a second document of 1001 characters, at work. *)
Lemma index_entry_not_a_chunk_witness :
  let s := start [] [] in
  let s1 := snd (add_document "alpha" "a.txt" "text" s) in
  let s2 := snd (add_document (text_of_length 1001) "b.txt" "text" s1) in
  exists index d,
    vector_store (svc s2) = Some index
    /\ d ∈ index
    /\ d ∉ split_documents 1000 200 (documents (svc s2)).
Proof.
  intros s s1 s2.
  apply (index_entry_not_a_chunk "alpha" "a.txt" "text"
           (text_of_length 1001) "b.txt" "text" s s1 s2).
  - reflexivity.
  - vm_compute. reflexivity.
  - vm_compute. reflexivity.
  - vm_compute. lia.
Defined.

(** C2: [notes.pdf] is answered with 500. *)
Lemma upload_bad_extension_is_500_witness :
  status_code
    (fst (serve (upload_document (mkUploadFile "notes.pdf" []) "text")
                (start [] []))) = 500
  /\ snd (serve (upload_document (mkUploadFile "notes.pdf" []) "text")
                (start [] [])) = start [] [].
Proof.
  rewrite (upload_bad_extension_is_500 (mkUploadFile "notes.pdf" []) "text"
             (start [] [])) by reflexivity.
  split; reflexivity.
Defined.

(** C3 as stated fails: with one document of 250 characters ingested, the
    single source reported has 215 characters, its 203 characters of
    excerpt after the 12 of the tag. *)
Lemma rag_source_longer_than_203 :
  exists answer src latency s',
    get_rag_response "What is it?" None one_document
      = (inr (answer, [src], latency), s')
    /\ Py.len src = 215%nat
    /\ ~ (Py.len src <= 203)%nat.
Proof.
  eexists _, _, _, _. split; [vm_compute; reflexivity|].
  split; [vm_compute; reflexivity|]. vm_compute. lia.
Qed.

(** C3 on the code, at that service. *)
Lemma rag_sources_bounded_witness :
  reachable one_document
  /\ exists answer srcs latency s',
       get_rag_response "What is it?" None one_document
         = (inr (answer, srcs, latency), s')
       /\ (length srcs <= 3)%nat
       /\ Forall (fun src =>
            exists d fname index c,
              d ∈ documents (svc one_document)
              /\ metadata d !! "filename" = Some fname
              /\ vector_store (svc one_document) = Some index /\ c ∈ index
              /\ cut_from c d
              /\ src = "[" +:+ fname +:+ "] " +:+ source_text c
              /\ (Py.len (source_text c) <= 203)%nat
              /\ (Py.len src <= Py.len fname + 206)%nat) srcs.
Proof.
  split; [exact one_document_reachable|].
  apply (rag_sources_bounded "What is it?" None one_document).
  exact one_document_reachable.
Defined.

(** C4 on a service just started. *)
Lemma rag_without_documents_witness :
  vector_store (svc (start [] [])) = None
  /\ exists latency s',
       get_rag_response "What is it?" (Some "s1") (start [] [])
         = (inr (no_documents_message, [], latency), s')
       /\ trace s' = trace (start [] []) ++ [CallTime; CallTime]
       /\ svc s' = svc (start [] []) /\ heap s' = heap (start [] []).
Proof.
  split; [reflexivity|].
  apply (rag_without_documents "What is it?" (Some "s1") (start [] [])).
  reflexivity.
Defined.

(** C5 at work: the server is down, the caller gets the apology. *)
Example chat_with_server_down :
  fst (get_chat_response "Hi" (Some "s1")
         (start [inl (Exception "connection refused")] []))
  = inr (chat_apology +:+ "connection refused", 1).
Proof. vm_compute. reflexivity. Qed.

(** C6 as stated fails: the empty string is an identifier the caller
    sent, and two calls with it return two different memories. *)
Lemma empty_identifier_not_shared :
  fst (_get_or_create_session_memory (Some "") (start [] []))
    = inr 0%nat
  /\ fst (_get_or_create_session_memory (Some "")
            (snd (_get_or_create_session_memory (Some "") (start [] []))))
    = inr 1%nat
  /\ size (sessions (svc (run [PostChat (mkChatRequest "Hi" (Some ""));
                               PostChat (mkChatRequest "Hi" (Some ""))]
                              (start [] [])))) = 0%nat.
Proof. vm_compute. auto. Qed.

(** C6 on the code, for the session of [one_chat]. *)
Lemma get_or_create_sharing_witness :
  wf one_chat
  /\ exists m s1,
       _get_or_create_session_memory (Some "s1") one_chat = (inr m, s1)
       /\ sessions (svc s1) !! "s1" = Some m
       /\ forall rs,
            Forall (fun r => r <> DeleteSession "s1") rs ->
            _get_or_create_session_memory (Some "s1") (run rs s1)
              = (inr m, run rs s1)
            /\ buffer s1 m `prefix_of` buffer (run rs s1) m.
Proof.
  assert (Hwf : wf one_chat) by apply wf_run, wf_boot.
  split; [exact Hwf|].
  exact (get_or_create_sharing (Some "s1") one_chat Hwf).
Defined.

(** C7 for the session of [one_chat], against a service just started. *)
Lemma clear_then_chat_is_new_session_witness :
  let new := boot ∅ (world one_chat) in
  let cleared := snd (clear_session_memory "s1" one_chat) in
  sessions (svc one_chat) !! "s1" = Some 0%nat
  /\ sessions (svc cleared) !! "s1" = None
  /\ fst (get_chat_response "Hi again" (Some "s1") cleared)
     = fst (get_chat_response "Hi again" (Some "s1") new)
  /\ session_history "s1"
       (snd (get_chat_response "Hi again" (Some "s1") cleared))
     = session_history "s1"
         (snd (get_chat_response "Hi again" (Some "s1") new)).
Proof.
  intros new cleared.
  destruct (clear_then_chat_is_new_session "s1" "Hi again" one_chat new)
    as (_ & Hdel & _ & _ & _ & Hanswer & _ & _ & Hhist);
    [reflexivity|reflexivity|].
  split; [vm_compute; reflexivity|].
  split; [fold cleared in Hdel; rewrite Hdel; apply lookup_delete_eq|].
  split; [exact Hanswer|exact Hhist].
Defined.

(** C9 at work: the embedding call fails on the first upload. *)
Lemma add_document_not_atomic_witness :
  let s := start [] [Some (Exception "embedding failed")] in
  exists s',
    add_document "alpha" "a.txt" "text" s
      = (inl (Exception "embedding failed"), s')
    /\ get_document_count s' = (inr 1%nat, s')
    /\ vector_store (svc s') = None.
Proof.
  intros s.
  destruct (add_document_not_atomic "alpha" "a.txt" "text" s
              (Exception "embedding failed"))
    as (s' & Hrun & Hcount & _ & Hstore); [reflexivity|].
  exists s'. auto.
Defined.

(** *** The further properties at work *)

Lemma one_chat_reachable : reachable one_chat.
Proof. eexists _, _, _. reflexivity. Defined.

(** X6 on the service holding one document. *)
Lemma rag_outcomes_witness :
  let index := default [] (vector_store (svc one_document)) in
  vector_store (svc one_document) = Some index
  /\ exists answer srcs latency s',
       get_rag_response "What is it?" None one_document
         = (inr (answer, srcs, latency), s')
       /\ svc s' = svc one_document.
Proof.
  intros index.
  assert (H : vector_store (svc one_document) = Some index)
    by (vm_compute; reflexivity).
  split; [exact H|].
  destruct (rag_outcomes "What is it?" None index one_document H)
    as (answer & srcs & latency & s' & Hrun & Hsvc & _).
  eauto 10.
Defined.

(** X9: a second chat under ["s1"]. *)
Lemma chat_history_growth_witness :
  Py.truthy "s1" = true
  /\ session_history "s1"
       (snd (get_chat_response "Again" (Some "s1") one_chat))
     = Some [(Human, "Hi"); (AI, " ok "); (Human, "Again"); (AI, " ok ")].
Proof.
  split; [reflexivity|].
  destruct (chat_history_growth "Again" "s1" one_chat eq_refl) as [H _].
  rewrite H. vm_compute. reflexivity.
Defined.

(** X10: a chat under ["s2"] leaves the history of ["s1"] alone. *)
Lemma chat_leaves_other_sessions_witness :
  reachable one_chat
  /\ Some "s2" <> Some "s1"
  /\ session_history "s1"
       (snd (get_chat_response "Hello" (Some "s2") one_chat))
     = session_history "s1" one_chat.
Proof.
  split; [exact one_chat_reachable|]. split; [discriminate|].
  apply (chat_leaves_other_sessions "Hello" (Some "s2") "s1" one_chat).
  - exact one_chat_reachable.
  - discriminate.
Defined.

(** X13: the embedding fails for the first document and succeeds for the
    second. *)
Lemma failed_document_indexed_later_witness :
  let s := start [] [Some (Exception "embedding failed")] in
  let s1 := snd (add_document "alpha" "a.txt" "text" s) in
  let s2 := snd (add_document "beta" "b.txt" "text" s1) in
  exists d1 d2,
    page_content d1 = "alpha" /\ page_content d2 = "beta"
    /\ documents (svc s2) = documents (svc s) ++ [d1; d2]
    /\ vector_store (svc s2)
       = Some (split_documents 1000 200 (documents (svc s) ++ [d1; d2])).
Proof.
  intros s s1 s2.
  apply (failed_document_indexed_later "alpha" "a.txt" "text"
           "beta" "b.txt" "text" (Exception "embedding failed") s s1 s2).
  - reflexivity.
  - vm_compute. reflexivity.
  - vm_compute. reflexivity.
Defined.

(** X15: the completion [" ok "] is answered as ["ok"]. *)
Lemma chat_answer_stripped_witness :
  exists latency,
    fst (get_chat_response "Hi" None (start [] [])) = inr ("ok", latency).
Proof.
  destruct (chat_answer_stripped "Hi" None " ok " (start [] []) eq_refl)
    as (answer & latency & Hrun & _).
  exists latency. rewrite Hrun. vm_compute in Hrun.
  injection Hrun as <- _. reflexivity.
Defined.

(** X18: a file of three spaces. *)
Lemma upload_blank_is_500_witness :
  status_code
    (fst (serve (upload_document
                   (mkUploadFile "notes.txt" (list_ascii_of_string "   "))
                   "text") (start [] []))) = 500
  /\ snd (serve (upload_document
                   (mkUploadFile "notes.txt" (list_ascii_of_string "   "))
                   "text") (start [] [])) = start [] [].
Proof.
  rewrite (upload_blank_is_500
             (mkUploadFile "notes.txt" (list_ascii_of_string "   "))
             "text" "   " (start [] []))
    by reflexivity.
  split; reflexivity.
Defined.

(** X19: a file of the single byte [0xFF], with the strict decoder. *)
Lemma upload_undecodable_is_500_witness :
  let s := @boot strict ∅ (mkScript 0 [] []) in
  let file := mkUploadFile "notes.txt" [ascii_of_nat 255] in
  @serve strict _ (@upload_document strict file "text") s
  = (mkResponse 500
       (inr "Erro ao processar documento: invalid start byte"), s).
Proof.
  intros s file.
  apply (@upload_undecodable_is_500 strict file "text"
           (Exception "invalid start byte") s); reflexivity.
Defined.

(** X20: the upload of ["alpha"] as [notes.txt]. *)
Lemma upload_success_witness :
  exists s',
    serve (upload_document
             (mkUploadFile "notes.txt" (list_ascii_of_string "alpha")) "text")
          (start [] [])
    = (mkResponse 200
         (inl (mkUploadResult "Documento notes.txt carregado com sucesso"
                 "notes.txt" 5 "text" 1)), s').
Proof.
  destruct (upload_success
              (mkUploadFile "notes.txt" (list_ascii_of_string "alpha"))
              "text" "alpha" (start [] []))
    as (s' & Hrun & _); try reflexivity.
  exists s'. exact Hrun.
Defined.

(** X21: the same upload when the embedding fails. *)
Lemma upload_embedding_failure_witness :
  let s := start [] [Some (Exception "embedding failed")] in
  exists s',
    serve (upload_document
             (mkUploadFile "notes.txt" (list_ascii_of_string "alpha")) "text")
          s
    = (mkResponse 500
         (inr "Erro ao processar documento: embedding failed"), s')
    /\ get_document_count s' = (inr 1%nat, s')
    /\ vector_store (svc s') = None.
Proof.
  intros s.
  destruct (upload_embedding_failure
              (mkUploadFile "notes.txt" (list_ascii_of_string "alpha"))
              "text" "alpha" (Exception "embedding failed") s)
    as (s' & Hrun & _ & Hcount & Hstore); try reflexivity.
  exists s'. auto.
Defined.

(** X22: after that failure, one document counted and none to search. *)
Lemma counted_but_not_searchable_witness :
  let s := start [] [Some (Exception "embedding failed")] in
  let s' := snd (add_document "alpha" "notes.txt" "text" s) in
  get_document_count s' = (inr 1%nat, s')
  /\ exists latency s'',
       get_rag_response "What is it?" None s'
       = (inr (no_documents_message, [], latency), s'').
Proof.
  intros s s'.
  apply (counted_but_not_searchable "alpha" "notes.txt" "text" "What is it?"
           None (Exception "embedding failed") s s').
  - reflexivity.
  - vm_compute. reflexivity.
Defined.

(** X23 on the service holding one document. *)
Lemma index_needs_document_witness :
  reachable one_document
  /\ is_Some (vector_store (svc one_document))
  /\ (0 < length (documents (svc one_document)))%nat.
Proof.
  assert (H : is_Some (vector_store (svc one_document)))
    by (eexists; vm_compute; reflexivity).
  split; [exact one_document_reachable|]. split; [exact H|].
  exact (index_needs_document one_document one_document_reachable H).
Defined.

(** C3 at work with two documents: each source carries the filename of
    the document its text comes from. *)
Example sources_name_their_documents :
  fst (get_rag_response "What is it?" None
         (run [upload "first.txt" "alpha"; upload "second.txt" "beta"]
              (start [] [])))
  = inr ("ok", ["[first.txt] alpha"; "[second.txt] beta"], 1).
Proof. vm_compute. reflexivity. Qed.

(** X4 and X5 at the edges: an empty message or question and one of 2001
    characters are refused with 422, one of 2000 characters is served. *)
Example validation_edges :
  reply_status (fst (post_chat (mkChatRequest "" (Some "s1")) (start [] [])))
    = 422
  /\ snd (post_chat (mkChatRequest "" (Some "s1")) (start [] []))
     = start [] []
  /\ reply_status
       (fst (post_chat (mkChatRequest (text_of_length 2001) None)
                       (start [] []))) = 422
  /\ reply_status
       (fst (post_chat (mkChatRequest (text_of_length 2000) None)
                       (start [] []))) = 200
  /\ reply_status (fst (post_ask (mkRAGQueryRequest "" None) (start [] [])))
     = 422
  /\ reply_status
       (fst (post_ask (mkRAGQueryRequest "What is it?" None) (start [] [])))
     = 200.
Proof. repeat split; vm_compute; reflexivity. Qed.

(** X16 and X17 at the edges: the bare name [.txt] passes the check and
    [NOTES.TXT] does not; a text of 200 characters is reported whole. *)
Example extension_edges :
  Py.endswith_any ".txt" [".txt"; ".md"] = true
  /\ Py.endswith_any "NOTES.TXT" [".txt"; ".md"] = false
  /\ Py.endswith_any "notes.txt.bak" [".txt"; ".md"] = false.
Proof. repeat split; reflexivity. Qed.

Example excerpt_edges :
  source_text (mkDocument (text_of_length 200) ∅) = text_of_length 200
  /\ Py.len (source_text (mkDocument (text_of_length 201) ∅)) = 203%nat.
Proof. split; vm_compute; reflexivity. Qed.

End Runs.
